(** * Trend extrapolation and option recommendations

    A shallow embedding of the two functions of [full_comprehensive_app.py]
    that carry logic:

    - [predict_price_movement] (lines 39-49): fits a straight line to the
      closing prices of a pandas frame and reads it [days] steps ahead;
    - [analyze_options] (lines 65-102): shows the option chain of a ticker
      and turns the pair (predicted, current) into a recommendation.

    Python and NumPy compute on IEEE-754 binary64 numbers.  The embedding is
    written once over an interface of arithmetic operations, [Number], and
    used at two instances: [float] (the kernel's binary64, bit for bit what
    CPython computes for [*], [<] and [>]) and [Qc] (exact rationals, the
    analytic reading of the least-squares fit: the solver itself belongs to
    scikit-learn, not to the repository). *)

From Stdlib Require Import ZArith QArith Qcanon Floats Lia.
From stdpp Require Import gmap strings list.
From Stdlib Require Import Lqa.

Set Warnings "-inexact-float".

(** ** Numbers *)

Class Number (F : Type) := {
  num_add : F → F → F;
  num_sub : F → F → F;
  num_mul : F → F → F;
  num_div : F → F → F;
  (** [num_ltb x y] is Python's [x < y]; [x > y] is [num_ltb y x]. *)
  num_ltb : F → F → bool;
  (** the conversion of an integer index to a number *)
  num_of_Z : Z → F;
  (** [numpy.isfinite] *)
  num_finite : F → bool;
  (** the literals [1.05] and [0.95] of lines 86 and 91 *)
  num_1_05 : F;
  num_0_95 : F
}.

Definition num_gtb `{Number F} (x y : F) : bool := num_ltb y x.

(** Exact rationals. *)
#[export] Instance Qc_Number : Number Qc := {|
  num_add := Qcplus;
  num_sub := Qcminus;
  num_mul := Qcmult;
  num_div := Qcdiv;
  num_ltb x y := bool_decide (x < y)%Qc;
  num_of_Z := Qc_of_Z;
  num_finite _ := true;
  num_1_05 := Q2Qc (105 # 100);
  num_0_95 := Q2Qc (95 # 100)
|}.

(** Binary64.  Indices stay far below 2^63, where [of_uint63] is the
    correctly rounded conversion. *)
Definition float_of_Z (z : Z) : float :=
  match z with
  | Z0 => PrimFloat.zero
  | Zpos _ => PrimFloat.of_uint63 (Uint63.of_Z z)
  | Zneg p => PrimFloat.opp (PrimFloat.of_uint63 (Uint63.of_Z (Zpos p)))
  end.

#[export] Instance float_Number : Number float := {|
  num_add := PrimFloat.add;
  num_sub := PrimFloat.sub;
  num_mul := PrimFloat.mul;
  num_div := PrimFloat.div;
  num_ltb := PrimFloat.ltb;
  num_of_Z := float_of_Z;
  num_finite := PrimFloat.is_finite;
  num_1_05 := 1.05%float;
  num_0_95 := 0.95%float
|}.

(** ** Exceptions *)

Inductive exn :=
| KeyError (key : string)
| ValueError (msg : string)
| IndexError.

Inductive result (A : Type) :=
| Ok (a : A)
| Raise (e : exn).
Arguments Ok {A} a.
Arguments Raise {A} e.

#[export] Instance exn_eq_dec : EqDecision exn.
Proof. solve_decision. Defined.

#[export] Instance result_eq_dec {A} `{EqDecision A} : EqDecision (result A).
Proof. solve_decision. Defined.

(** ** The recommendation (lines 85-100) *)

Inductive category := BUY_CALL | BUY_PUT | HOLD.

#[export] Instance category_eq_dec : EqDecision category.
Proof. solve_decision. Defined.

(** A table of option contracts is passed through to the display untouched;
    its rows are opaque here. *)
Definition table := list (list string).

(** What Streamlit is asked to draw, in call order.  The formatted texts of
    lines 87-100 are kept as the category and the prices they print (the
    HOLD text prints the predicted price only). *)
Inductive st_event {F : Type} :=
| st_subheader (text : string)
| st_error (text : string)
| st_write (text : string)
| st_dataframe (t : table)
| st_success (c : category) (current_price predicted_price : F)
| st_info (c : category) (predicted_price : F).
Arguments st_event F : clear implicits.

Section Classifier.
Context {F : Type} `{Number F}.

(** Lines 86-100: the [if] / [elif] / [else]. *)
Definition recommend (predicted_price current_price : F) : st_event F :=
  if num_gtb predicted_price (num_mul current_price num_1_05) then
    st_success BUY_CALL current_price predicted_price
  else if num_ltb predicted_price (num_mul current_price num_0_95) then
    st_success BUY_PUT current_price predicted_price
  else
    st_info HOLD predicted_price.

(** The category a drawn event recommends, if it is a recommendation. *)
Definition category_of (e : st_event F) : option category :=
  match e with
  | st_success c _ _ => Some c
  | st_info c _ => Some c
  | _ => None
  end.

Definition is_error (e : st_event F) : bool :=
  match e with st_error _ => true | _ => false end.

Definition is_dataframe (e : st_event F) : bool :=
  match e with st_dataframe _ => true | _ => false end.

(** All categories recommended in a trace, and whether it shows an error. *)
Definition recommended (tr : list (st_event F)) : list category :=
  omap category_of tr.

Definition signals_error (tr : list (st_event F)) : bool :=
  existsb is_error tr.

Definition shows_tables (tr : list (st_event F)) : bool :=
  existsb is_dataframe tr.

(** ** The ticker and [analyze_options] (lines 65-102) *)

(** [yfinance.Ticker]: the expiry dates on offer and the chain of one
    expiry, either of which may raise (network, unknown symbol). *)
Record Ticker := {
  options : result (list string);
  option_chain : string → result (table * table)
}.

(** [predicted_price] and [current_price] are what the caller got from
    [predict_price_movement]: numbers, or [None], on which the comparison
    of line 86 raises a [TypeError].  [selectbox] is the widget of line 74,
    returning the expiry the user picked.  Every exception raised inside
    the [try] is drawn as an error (line 102); the text of the exception,
    which the message appends, is left out. *)
Definition analyze_options (selectbox : list string → string) (stock : Ticker)
    (predicted_price current_price : option F) : list (st_event F) :=
  st_subheader "Options Recommendations" ::
  match options stock with
  | Raise _ => [st_error "Error analyzing options"]
  | Ok [] => [st_error "No options data available for this stock."]
  | Ok expiry_dates =>
      let expiry := selectbox expiry_dates in
      match option_chain stock expiry with
      | Raise _ => [st_error "Error analyzing options"]
      | Ok (calls, puts) =>
          [st_write "Call Options"; st_dataframe calls;
           st_write "Put Options"; st_dataframe puts] ++
          match predicted_price, current_price with
          | Some p, Some c => [recommend p c]
          | _, _ => [st_error "Error analyzing options"]
          end
      end
  end.
End Classifier.

(** ** The price frame *)

(** A pandas frame: [nrows] is [len(data)], [columns] maps a column name to
    its values. *)
Record DataFrame {F : Type} := {
  nrows : nat;
  columns : gmap string (list F)
}.
Arguments DataFrame F : clear implicits.

(** [data[name] = col] *)
Definition set_column {F} (name : string) (col : list F) (data : DataFrame F)
    : DataFrame F :=
  {| nrows := nrows data; columns := <[name := col]> (columns data) |}.

(** [data[name]], a [KeyError] when there is no such column. *)
Definition get_column {F} (name : string) (data : DataFrame F) : result (list F) :=
  match columns data !! name with
  | Some col => Ok col
  | None => Raise (KeyError name)
  end.

(** ** The regression *)

Section Extrapolator.
Context {F : Type} `{Number F}.

Local Infix "+" := num_add.
Local Infix "-" := num_sub.
Local Infix "*" := num_mul.
Local Infix "/" := num_div.

(** [np.arange(lo, hi)] as numbers; empty when [hi <= lo]. *)
Definition arange (lo hi : Z) : list F := num_of_Z <$> seqZ lo (hi - lo).

Definition total (l : list F) : F := foldr num_add (num_of_Z 0) l.

Definition mean (l : list F) : F := total l / num_of_Z (Z.of_nat (length l)).

Definition dot (u v : list F) : F := total (zip_with num_mul u v).

(** Modelled from the spec: [sklearn.linear_model.LinearRegression] is
    imported (line 6), its code is not in the repository.  Section 4.1 asks
    for the ordinary least-squares fit of close on index, matching OLS
    analytically; below is that fit in the closed form the library
    documents for its defaults and one feature: the data are centred on
    their means, [coef_] is the least-squares slope of the centred data,
    [intercept_ = mean(y) - mean(X) * coef_], and a prediction is
    [x * coef_ + intercept_].  Input validation rejects NaN and
    infinities, empty arrays and arrays of different lengths with a
    [ValueError]. *)
Record LinearRegression := {
  coef_ : F;
  intercept_ : F
}.

Definition check_array (a : list F) : result (list F) :=
  if negb (forallb num_finite a) then
    Raise (ValueError "Input contains NaN or infinity")
  else if bool_decide (length a = 0%nat) then
    Raise (ValueError "Found array with 0 sample(s)")
  else Ok a.

Definition fit (X y : list F) : result LinearRegression :=
  match check_array X with
  | Raise e => Raise e
  | Ok X =>
    match check_array y with
    | Raise e => Raise e
    | Ok y =>
      if negb (bool_decide (length X = length y)) then
        Raise (ValueError "inconsistent numbers of samples")
      else
        let X_offset := mean X in
        let y_offset := mean y in
        let Xc := (λ x, x - X_offset) <$> X in
        let yc := (λ v, v - y_offset) <$> y in
        let coef := dot Xc yc / dot Xc Xc in
        Ok {| coef_ := coef; intercept_ := y_offset - X_offset * coef |}
    end
  end.

Definition predict (model : LinearRegression) (X : list F) : result (list F) :=
  match check_array X with
  | Raise e => Raise e
  | Ok X => Ok ((λ x, x * coef_ model + intercept_ model) <$> X)
  end.

(** ** [predict_price_movement] (lines 39-49)

    The frame is a Python object shared with the caller, so the function
    returns the frame as it leaves it next to the outcome.  [None, None]
    is the pair [(None, None)] of line 41. *)
Definition predict_price_movement (data : DataFrame F) (days : Z)
    : DataFrame F * result (option F * option F) :=
  let n := Z.of_nat (nrows data) in
  if (n <? 2)%Z then (data, Ok (None, None))
  else
    (* line 42: data['Days'] = np.arange(len(data)) *)
    let data := set_column "Days" (arange 0 n) data in
    (* lines 43-44 *)
    match get_column "Days" data with
    | Raise e => (data, Raise e)
    | Ok X =>
      match get_column "Close" data with
      | Raise e => (data, Raise e)
      | Ok y =>
        (* lines 45-46 *)
        match fit X y with
        | Raise e => (data, Raise e)
        | Ok model =>
          (* lines 47-48 *)
          let future_days := arange n (n + days) in
          match predict model future_days with
          | Raise e => (data, Raise e)
          | Ok predictions =>
            (* line 49: data['Close'].iloc[-1], predictions[-1] *)
            match get_column "Close" data with
            | Raise e => (data, Raise e)
            | Ok close =>
              match last close, last predictions with
              | Some current_price, Some predicted_price =>
                  (data, Ok (Some current_price, Some predicted_price))
              | _, _ => (data, Raise IndexError)
              end
            end
          end
        end
      end
    end.

(** Lines 45-49 as a function of the length of the frame and of its
    [Close] column, which is all they read
    ([predict_price_movement_outcome]). *)
Definition fitted_pair (n : Z) (y : list F) (days : Z)
    : result (option F * option F) :=
  match fit (arange 0 n) y with
  | Raise e => Raise e
  | Ok model =>
    match predict model (arange n (n + days)) with
    | Raise e => Raise e
    | Ok predictions =>
      match last y, last predictions with
      | Some current_price, Some predicted_price =>
          Ok (Some current_price, Some predicted_price)
      | _, _ => Raise IndexError
      end
    end
  end.

(** ** The options tab (lines 142-144)

    [predict_price_movement] is called with its default [days=7] on the
    frame kept in the session, and its pair goes to [analyze_options]
    unchecked. *)
Definition options_tab (selectbox : list string → string) (stock : Ticker)
    (stock_data : DataFrame F) : DataFrame F * result (list (st_event F)) :=
  match predict_price_movement stock_data 7 with
  | (data, Raise e) => (data, Raise e)
  | (data, Ok (current_price, predicted_price)) =>
      (data, Ok (analyze_options selectbox stock predicted_price current_price))
  end.
End Extrapolator.

(** ** Sample data *)

(** The frame the data source hands over, reduced to its closing prices. *)
Definition price_frame {F} (close : list F) : DataFrame F :=
  {| nrows := length close; columns := {[ "Close" := close ]} |}.

(** The series [close[i] = a*i + b] for [i = 0..n-1]. *)
Definition linear_series `{Number F} (a b : F) (n : nat) : list F :=
  (λ i, num_add (num_mul a (num_of_Z i)) b) <$> seqZ 0 (Z.of_nat n).

(** A ticker with one expiry on offer, and one with none. *)
Definition listed (calls puts : table) : Ticker :=
  {| options := Ok ["2024-01-19"]; option_chain := λ _, Ok (calls, puts) |}.

Definition unlisted : Ticker :=
  {| options := Ok []; option_chain := λ _, Raise (ValueError "no expiry") |}.

(** The widget left alone returns the first entry. *)
Definition first_expiry (dates : list string) : string := default "" (head dates).

(** ** The page (lines 10-36, 51-62, 104-157)

    Streamlit runs the script from top to bottom on every interaction.  A
    run reads the widgets and the session, talks to yfinance, draws, and
    leaves a session behind; an exception that nothing catches ends it. *)

(** Lines 11-17. *)
Definition top_50_stocks : list string :=
  ["AAPL"; "MSFT"; "GOOGL"; "AMZN"; "TSLA"; "META"; "NVDA"; "BRK.B"; "V"; "JPM";
   "JNJ"; "WMT"; "PG"; "UNH"; "HD"; "MA"; "DIS"; "PYPL"; "BAC"; "NFLX";
   "ADBE"; "KO"; "PEP"; "NKE"; "T"; "PFE"; "MRK"; "INTC"; "XOM"; "CSCO";
   "ORCL"; "CMCSA"; "ABT"; "CRM"; "COST"; "VZ"; "ACN"; "AMD"; "UPS"; "QCOM";
   "TXN"; "AVGO"; "LIN"; "LOW"; "HON"; "AMGN"; "CVX"; "MDT"; "PM"; "NEE"].

(** [st.session_state] (lines 20-23): both keys start as [None]. *)
Record Session {F : Type} := {
  stock_data : option (DataFrame F);
  selected_stock : option string
}.
Arguments Session F : clear implicits.

Definition initial_session {F} : Session F :=
  {| stock_data := None; selected_stock := None |}.

(** The store of [st.cache_data] (line 26): per triple of arguments, what
    the call drew and what it returned.  A hit replays the drawing and
    hands out a copy of the value; nothing in the script clears the store. *)
Abbreviation fetch_cache F :=
  (gmap (string * Z * Z) (list (st_event F) * option (DataFrame F))).

(** The state one run leaves to the next. *)
Record App {F : Type} := {
  session : Session F;
  data_cache : fetch_cache F
}.
Arguments App F : clear implicits.

Definition initial_app {F} : App F :=
  {| session := initial_session; data_cache := ∅ |}.

(** What the widgets return in one run: the stock picked (line 120), the two
    dates (lines 121-122, as day numbers), whether the button was pressed
    (line 124) and the expiry picked (line 74). *)
Record Widgets := {
  stock_choice : string;
  start_date : Z;
  end_date : Z;
  analyze_pressed : bool;
  expiry_choice : list string → string
}.

(** yfinance as the run meets it: [yf.download] (line 29), which may raise,
    and [yf.Ticker] (line 141). *)
Record Market {F : Type} := {
  yf_download : string → Z → Z → result (DataFrame F);
  yf_Ticker : string → Ticker
}.
Arguments Market F : clear implicits.

(** Everything the page draws: the events of [analyze_options], and the
    other calls of the script. *)
Inductive page_event {F : Type} :=
| core (e : st_event F)
| st_header (text : string)
| st_write_frame (label : string) (rows : DataFrame F)
| st_plotly_chart (open high low close : list F)
| st_write_price (label : string) (price : F)
| st_info_text (text : string).
Arguments page_event F : clear implicits.

Section Page.
Context {F : Type} `{Number F}.

(** [DataFrame.empty]: an axis of length 0. *)
Definition frame_empty (data : DataFrame F) : bool :=
  bool_decide (nrows data = 0%nat) || bool_decide (size (columns data) = 0%nat).

(** [data.tail(k)] *)
Definition frame_tail (k : nat) (data : DataFrame F) : DataFrame F :=
  {| nrows := Nat.min k (nrows data);
     columns := (λ col, drop (length col - k) col) <$> columns data |}.

(** Lines 27-36, the body of [fetch_stock_data]: the messages drawn and
    the value returned.  The [except] clause turns every exception of the
    download into [None]; the text of the exception, which the message
    appends, is left out. *)
Definition fetch_stock_data_body (market : Market F) (ticker : string)
    (start_date end_date : Z) : list (st_event F) * option (DataFrame F) :=
  match yf_download market ticker start_date end_date with
  | Raise _ => ([st_error "Error fetching stock data"], None)
  | Ok stock_data =>
      if frame_empty stock_data then
        ([st_error ("No data found for ticker '" +:+ ticker +:+ "'.")], None)
      else ([], Some stock_data)
  end.

(** Lines 26-36, [fetch_stock_data] under [@st.cache_data]: the body runs
    only for arguments not met before, and its answer, [None] included, is
    stored. *)
Definition fetch_stock_data (cache : fetch_cache F) (market : Market F)
    (ticker : string) (start_date end_date : Z)
    : fetch_cache F * (list (st_event F) * option (DataFrame F)) :=
  match cache !! (ticker, start_date, end_date) with
  | Some answer => (cache, answer)
  | None =>
      let answer := fetch_stock_data_body market ticker start_date end_date in
      (<[(ticker, start_date, end_date) := answer]> cache, answer)
  end.

(** Lines 52-62.  The subheader is drawn before the figure is built; the
    four columns are read in the order of the call. *)
Definition display_candlestick_chart (data : DataFrame F)
    : list (page_event F) * result unit :=
  let drawn := [core (st_subheader "Candlestick Chart")] in
  match get_column "Open" data with
  | Raise e => (drawn, Raise e)
  | Ok open =>
    match get_column "High" data with
    | Raise e => (drawn, Raise e)
    | Ok high =>
      match get_column "Low" data with
      | Raise e => (drawn, Raise e)
      | Ok low =>
        match get_column "Close" data with
        | Raise e => (drawn, Raise e)
        | Ok close => (drawn ++ [st_plotly_chart open high low close], Ok ())
        end
      end
    end
  end.

(** Lines 105-107 and 110-112. *)
Definition fetch_economic_events : list (page_event F) :=
  [core (st_subheader "Upcoming Economic Events");
   st_info_text "Economic events such as earnings, Fed announcements, and other market-moving events will be displayed here."].

Definition fetch_news_sentiment (ticker : string) : list (page_event F) :=
  [core (st_subheader "News Sentiment Analysis");
   st_info_text ("Fetching news sentiment for " +:+ ticker +:+
                 "... (This feature is under development)")].

(** Python's truth value of [st.session_state.selected_stock]. *)
Definition chosen (selected : option string) : option string :=
  match selected with
  | Some symbol => if decide (symbol = "") then None else Some symbol
  | None => None
  end.

(** Lines 118-134.  The frame stored in the session at line 128 is the
    object [predict_price_movement] then writes to, so the session holds
    the frame as that call leaves it. *)
Definition stock_analysis_tab (w : Widgets) (market : Market F) (app : App F)
    : App F * list (page_event F) * result unit :=
  let header := [st_header "Stock Analysis"] in
  let s := session app in
  if analyze_pressed w then
    let selected := Some (stock_choice w) in
    match fetch_stock_data (data_cache app) market
            (stock_choice w) (start_date w) (end_date w) with
    | (cache, (messages, None)) =>
        ({| session := {| stock_data := stock_data s; selected_stock := selected |};
            data_cache := cache |},
         header ++ (core <$> messages), Ok ())
    | (cache, (messages, Some data)) =>
        let shown := header ++ (core <$> messages) ++
                     [st_write_frame "Stock Data" (frame_tail 10 data)] in
        let stored data :=
          {| session := {| stock_data := Some data; selected_stock := selected |};
             data_cache := cache |} in
        match display_candlestick_chart data with
        | (chart, Raise e) => (stored data, shown ++ chart, Raise e)
        | (chart, Ok _) =>
            match predict_price_movement data 7 with
            | (data, Raise e) => (stored data, shown ++ chart, Raise e)
            | (data, Ok (Some current_price, Some predicted_price)) =>
                (stored data,
                 shown ++ chart ++
                 [st_write_price "Current Price" current_price;
                  st_write_price "Predicted Price" predicted_price],
                 Ok ())
            | (data, Ok _) => (stored data, shown ++ chart, Ok ())
            end
        end
    end
  else (app, header, Ok ()).

(** Lines 137-146. *)
Definition options_analysis_tab (w : Widgets) (market : Market F) (s : Session F)
    : Session F * list (page_event F) * result unit :=
  let header := [st_header "Options Analysis"] in
  match chosen (selected_stock s) with
  | Some symbol =>
      let fetching :=
        header ++ [core (st_write ("Fetching options for " +:+ symbol +:+ "..."))] in
      let stock := yf_Ticker market symbol in
      match stock_data s with
      | Some data =>
          match options_tab (expiry_choice w) stock data with
          | (data, Raise e) =>
              ({| stock_data := Some data; selected_stock := selected_stock s |},
               fetching, Raise e)
          | (data, Ok drawn) =>
              ({| stock_data := Some data; selected_stock := selected_stock s |},
               fetching ++ (core <$> drawn), Ok ())
          end
      | None => (s, fetching, Ok ())
      end
  | None =>
      (s, header ++ [st_info_text "Select a stock in the Stock Analysis tab first."],
       Ok ())
  end.

(** Lines 149-157. *)
Definition economic_events_tab : list (page_event F) := fetch_economic_events.

Definition news_sentiment_tab (s : Session F) : list (page_event F) :=
  match chosen (selected_stock s) with
  | Some symbol => fetch_news_sentiment symbol
  | None => [st_info_text "Select a stock in the Stock Analysis tab first."]
  end.

(** One run of the script, lines 114-157: the four tabs in order, up to
    the first exception. *)
Definition run_script (w : Widgets) (market : Market F) (app : App F)
    : App F * list (page_event F) * result unit :=
  match stock_analysis_tab w market app with
  | (app, drawn1, Raise e) => (app, drawn1, Raise e)
  | (app, drawn1, Ok _) =>
      match options_analysis_tab w market (session app) with
      | (s, drawn2, Raise e) =>
          ({| session := s; data_cache := data_cache app |}, drawn1 ++ drawn2, Raise e)
      | (s, drawn2, Ok _) =>
          ({| session := s; data_cache := data_cache app |},
           drawn1 ++ drawn2 ++ economic_events_tab ++ news_sentiment_tab s, Ok ())
      end
  end.

(** The state after further runs, and after a series of runs from the first
    visit. *)
Definition run_all (app : App F) (runs : list (Widgets * Market F)) : App F :=
  foldl (λ app '(w, market), (run_script w market app).1.1) app runs.

Definition app_after (runs : list (Widgets * Market F)) : App F :=
  run_all initial_app runs.

(** What [fetch_stock_data] may answer: a frame that is not empty and no
    message, or [None] and one error message. *)
Definition fetch_answer_ok (answer : list (st_event F) * option (DataFrame F)) : Prop :=
  match answer with
  | (messages, Some data) => messages = [] ∧ frame_empty data = false
  | (messages, None) => ∃ text, messages = [st_error text]
  end.

(** What holds of the state between runs: a stored frame is not empty and
    comes with a symbol, and the store of the cache holds answers of
    [fetch_stock_data] only. *)
Definition app_ok (app : App F) : Prop :=
  (∀ data, stock_data (session app) = Some data →
     frame_empty data = false ∧ is_Some (selected_stock (session app))) ∧
  (∀ key answer, data_cache app !! key = Some answer → fetch_answer_ok answer).
End Page.

(** ** Sample runs *)

(** A frame as the download returns it, the four price columns alike. *)
Definition ohlc_frame {F} (close : list F) : DataFrame F :=
  {| nrows := length close;
     columns := <["Open" := close]> (<["High" := close]> (<["Low" := close]>
                  {[ "Close" := close ]})) |}.

(** yfinance answering every download with the same closes, and yfinance
    out of reach. *)
Definition steady_market {F} (close : list F) : Market F :=
  {| yf_download := λ _ _ _, Ok (ohlc_frame close);
     yf_Ticker := λ _, listed [] [] |}.

Definition closed_market {F} : Market F :=
  {| yf_download := λ _ _ _, Raise (ValueError "no connection");
     yf_Ticker := λ _, listed [] [] |}.

(** Pressing the button for a symbol, with the default dates of lines
    121-122 as day numbers and the expiry widget left alone. *)
Definition press (symbol : string) : Widgets :=
  {| stock_choice := symbol; start_date := 738156; end_date := 738886;
     analyze_pressed := true; expiry_choice := first_expiry |}.

(** ** Measures and tactics for the further properties *)

(** The sum over the rows of the squared difference between the close and
    the line [x * a + b]. *)
Definition squared_error `{Number F} (a b : F) (X y : list F) : F :=
  total (zip_with (λ x v, num_mul (num_sub v (num_add (num_mul x a) b))
                                  (num_sub v (num_add (num_mul x a) b))) X y).

(** From an inequality between canonical rationals to the one between the
    fractions below them, where [lra] and [nra] work. *)
Ltac Qc_to_Q :=
  unfold Qclt, Qcle, Qcminus, Qcopp, Qcplus, Qcmult, Q2Qc, Qc_of_Z, inject_Z in *;
  cbn [this] in *;
  rewrite ?Qred_correct in *.

(** * Properties *)

(** ** The frame across a call *)

Section Frame.
Context {F : Type} `{Number F}.
Implicit Types (data : DataFrame F) (days : Z).

Lemma set_column_twice name (col col' : list F) data :
  set_column name col (set_column name col' data) = set_column name col data.
Proof. unfold set_column; simpl. by rewrite insert_insert_eq. Qed.

Lemma set_column_other name name' (col : list F) data :
  name ≠ name' → columns (set_column name col data) !! name' = columns data !! name'.
Proof. intros Hne. simpl. by rewrite lookup_insert_ne. Qed.

Lemma set_column_same name (col : list F) data :
  columns (set_column name col data) !! name = Some col.
Proof. simpl. by rewrite lookup_insert_eq. Qed.

(** The frame a call leaves behind: untouched on the early return,
    with the [Days] column written otherwise, whatever happens later. *)
Lemma predict_price_movement_frame data days :
  (predict_price_movement data days).1 =
  if (Z.of_nat (nrows data) <? 2)%Z then data
  else set_column "Days" (arange 0 (Z.of_nat (nrows data))) data.
Proof.
  unfold predict_price_movement.
  repeat case_match; reflexivity.
Qed.

Lemma predict_price_movement_outcome data days :
  (predict_price_movement data days).2 =
  if (Z.of_nat (nrows data) <? 2)%Z then Ok (None, None)
  else match columns data !! "Close" with
       | None => Raise (KeyError "Close")
       | Some y => fitted_pair (Z.of_nat (nrows data)) y days
       end.
Proof.
  unfold predict_price_movement, fitted_pair, get_column.
  destruct (Z.of_nat (nrows data) <? 2)%Z; [reflexivity|].
  rewrite set_column_same, set_column_other by done.
  destruct (columns data !! "Close") as [y|]; [|reflexivity].
  repeat case_match; simplify_eq; reflexivity.
Qed.

Lemma predict_price_movement_short data days :
  (nrows data < 2)%nat → predict_price_movement data days = (data, Ok (None, None)).
Proof.
  intros Hn. unfold predict_price_movement.
  by rewrite (proj2 (Z.ltb_lt _ _)) by lia.
Qed.
End Frame.

(** ** The classifier *)

Section ClassifierFacts.
Context {F : Type} `{Number F}.
Implicit Types (p c : F) (stock : Ticker) (selectbox : list string → string).

Lemma recommend_category p c :
  category_of (recommend p c) =
  Some (if num_gtb p (num_mul c num_1_05) then BUY_CALL
        else if num_ltb p (num_mul c num_0_95) then BUY_PUT
        else HOLD).
Proof. unfold recommend. by repeat case_match. Qed.

Lemma recommend_not_error p c : is_error (recommend p c) = false.
Proof. unfold recommend. by repeat case_match. Qed.

(** With expiries on offer and a chain that loads, the two tables are drawn
    and the recommendation follows them. *)
Lemma analyze_options_available selectbox stock dates calls puts p c :
  options stock = Ok dates → dates ≠ [] →
  option_chain stock (selectbox dates) = Ok (calls, puts) →
  analyze_options selectbox stock (Some p) (Some c) =
  [st_subheader "Options Recommendations";
   st_write "Call Options"; st_dataframe calls;
   st_write "Put Options"; st_dataframe puts;
   recommend p c].
Proof.
  intros Ho Hne Hc. unfold analyze_options. rewrite Ho.
  destruct dates as [|d ds]; [done|]. by rewrite Hc.
Qed.

(** Line 68-70: the guard returns before anything else is drawn. *)
Lemma analyze_options_unavailable selectbox stock (p c : option F) :
  options stock = Ok [] →
  analyze_options selectbox stock p c =
  [st_subheader "Options Recommendations";
   st_error "No options data available for this stock."].
Proof. intros Ho. unfold analyze_options. by rewrite Ho. Qed.

Lemma recommended_available selectbox stock dates calls puts p c :
  options stock = Ok dates → dates ≠ [] →
  option_chain stock (selectbox dates) = Ok (calls, puts) →
  recommended (analyze_options selectbox stock (Some p) (Some c)) =
  [if num_gtb p (num_mul c num_1_05) then BUY_CALL
   else if num_ltb p (num_mul c num_0_95) then BUY_PUT
   else HOLD]
  ∧ signals_error (analyze_options selectbox stock (Some p) (Some c)) = false.
Proof.
  intros Ho Hne Hc.
  rewrite (analyze_options_available _ _ _ _ _ _ _ Ho Hne Hc).
  unfold recommended, signals_error. cbn.
  rewrite recommend_category, recommend_not_error. done.
Qed.
End ClassifierFacts.

(** ** NaN in binary64 *)

Lemma is_nan_Prim2SF (x : float) : PrimFloat.is_nan x = true → Prim2SF x = S754_nan.
Proof.
  unfold PrimFloat.is_nan. rewrite FloatAxioms.eqb_spec.
  destruct (Prim2SF x) as [s|s| |s m e]; try done.
  - by destruct s.
  - unfold SFeqb, SFcompare. rewrite Z.compare_refl.
    assert (Hm : Pos.compare_cont Eq m m = Eq) by apply Pos.compare_cont_refl.
    rewrite Hm. by destruct s.
Qed.

Lemma Prim2SF_is_nan (x : float) : Prim2SF x = S754_nan → PrimFloat.is_nan x = true.
Proof. intros Hx. unfold PrimFloat.is_nan. by rewrite FloatAxioms.eqb_spec, Hx. Qed.

Lemma ltb_nan_l (x y : float) : PrimFloat.is_nan x = true → PrimFloat.ltb x y = false.
Proof. intros Hx. by rewrite FloatAxioms.ltb_spec, (is_nan_Prim2SF x Hx). Qed.

Lemma ltb_nan_r (x y : float) : PrimFloat.is_nan y = true → PrimFloat.ltb x y = false.
Proof.
  intros Hy. rewrite FloatAxioms.ltb_spec, (is_nan_Prim2SF y Hy).
  unfold SFltb, SFcompare. by destruct (Prim2SF x).
Qed.

Lemma mul_nan_l (x y : float) :
  PrimFloat.is_nan x = true → PrimFloat.is_nan (x * y)%float = true.
Proof.
  intros Hx. apply Prim2SF_is_nan.
  by rewrite FloatAxioms.mul_spec, (is_nan_Prim2SF x Hx).
Qed.

(** Every comparison with NaN is false, so both tests of lines 86 and 91
    fail and the [else] branch is taken. *)
Lemma recommend_nan (p c : float) :
  PrimFloat.is_nan p = true ∨ PrimFloat.is_nan c = true →
  recommend p c = st_info HOLD p.
Proof.
  intros Hn. unfold recommend, num_gtb. cbn.
  destruct Hn as [Hp|Hc].
  - by rewrite (ltb_nan_r _ p Hp), (ltb_nan_l p _ Hp).
  - by rewrite (ltb_nan_l _ p (mul_nan_l c _ Hc)), (ltb_nan_r p _ (mul_nan_l c _ Hc)).
Qed.

(** ** Claims about the classifier *)

(** C2 (as the code has it).  In every number system the category follows
    the [if] / [elif] / [else] of lines 86-100: BUY_CALL exactly when
    [predicted > current * 1.05]; BUY_PUT exactly when that test fails and
    [predicted < current * 0.95]; HOLD exactly when both fail.  For a current
    price that is not negative the first test cannot hold together with the
    second (exact arithmetic), so there BUY_PUT is exactly
    [predicted < current * 0.95].  In binary64, with current price 100:
    105.0001 gives BUY_CALL, 105.0 gives HOLD, 94.9999 gives BUY_PUT and
    95.0 gives HOLD. *)
Theorem recommend_thresholds :
  (∀ (F : Type) (N : Number F) (p c : F),
     (category_of (recommend p c) = Some BUY_CALL ↔
        num_gtb p (num_mul c num_1_05) = true) ∧
     (category_of (recommend p c) = Some BUY_PUT ↔
        num_gtb p (num_mul c num_1_05) = false ∧
        num_ltb p (num_mul c num_0_95) = true) ∧
     (category_of (recommend p c) = Some HOLD ↔
        num_gtb p (num_mul c num_1_05) = false ∧
        num_ltb p (num_mul c num_0_95) = false)) ∧
  (∀ p c : Qc, (0 ≤ c)%Qc →
     (category_of (recommend p c) = Some BUY_PUT ↔
        num_ltb p (num_mul c num_0_95) = true)) ∧
  category_of (recommend 105.0001%float 100%float) = Some BUY_CALL ∧
  category_of (recommend 105.0%float 100%float) = Some HOLD ∧
  category_of (recommend 94.9999%float 100%float) = Some BUY_PUT ∧
  category_of (recommend 95.0%float 100%float) = Some HOLD.
Proof.
  split; [|split].
  - intros F N p c. rewrite recommend_category.
    destruct (num_gtb p (num_mul c num_1_05)), (num_ltb p (num_mul c num_0_95));
      intuition congruence.
  - intros p c Hc. rewrite recommend_category.
    unfold num_gtb. cbn.
    destruct (bool_decide (c * Q2Qc (105 # 100) < p)%Qc) eqn:Hup.
    + apply bool_decide_eq_true in Hup.
      split; [done|]. intros Hdown%bool_decide_eq_true.
      exfalso. apply (Qclt_not_le _ _ Hdown).
      apply Qcle_trans with (c * Q2Qc (105 # 100))%Qc; [|by apply Qclt_le_weak].
      by apply Qcmult_le_mono_nonneg_l.
    + destruct (bool_decide (p < c * Q2Qc (95 # 100))%Qc); naive_solver.
  - repeat split; vm_compute; reflexivity.
Qed.

(** C2 fails as stated: with both prices -100 (finite), the predicted price
    is below [current * 0.95 = -95], yet the first test
    [-100 > current * 1.05 = -105] already holds and BUY_CALL is emitted. *)
Lemma recommend_put_threshold_not_exact :
  ¬ (∀ p c : float,
       PrimFloat.is_finite p = true → PrimFloat.is_finite c = true →
       (category_of (recommend p c) = Some BUY_CALL ↔
          num_gtb p (num_mul c num_1_05) = true) ∧
       (category_of (recommend p c) = Some BUY_PUT ↔
          num_ltb p (num_mul c num_0_95) = true)).
Proof.
  intros Hall.
  destruct (Hall (-100)%float (-100)%float eq_refl eq_refl) as [_ [_ Hput]].
  assert (Hlt : num_ltb (-100)%float (num_mul (-100)%float num_0_95) = true)
    by (vm_compute; reflexivity).
  specialize (Hput Hlt). vm_compute in Hput. discriminate Hput.
Qed.

(** C10.  The branch of lines 86-100 is total: for every pair of numbers
    (finite or not, zero and negative current prices included) it yields
    exactly one category and no error, and HOLD whenever neither strict
    comparison holds.  In binary64: current price 0 with predicted 0, 1, -1
    gives HOLD, BUY_CALL, BUY_PUT; current price -100 with predicted -100,
    -110, -105 gives BUY_CALL, BUY_PUT, BUY_PUT. *)
Theorem recommend_total :
  (∀ (F : Type) (N : Number F) (p c : F),
     (∃ k, category_of (recommend p c) = Some k ∧
           ∀ k', category_of (recommend p c) = Some k' → k' = k) ∧
     (num_gtb p (num_mul c num_1_05) = false →
      num_ltb p (num_mul c num_0_95) = false →
      recommend p c = st_info HOLD p) ∧
     is_error (recommend p c) = false) ∧
  recommend 0%float 0%float = st_info HOLD 0%float ∧
  category_of (recommend 1%float 0%float) = Some BUY_CALL ∧
  category_of (recommend (-1)%float 0%float) = Some BUY_PUT ∧
  category_of (recommend (-100)%float (-100)%float) = Some BUY_CALL ∧
  category_of (recommend (-110)%float (-100)%float) = Some BUY_PUT ∧
  category_of (recommend (-105)%float (-100)%float) = Some BUY_PUT.
Proof.
  split.
  - intros F N p c. split; [|split].
    + rewrite recommend_category. eexists. split; [reflexivity|]. congruence.
    + intros Hup Hdown. unfold recommend. by rewrite Hup, Hdown.
    + apply recommend_not_error.
  - repeat split; vm_compute; reflexivity.
Qed.

(** C4 (as the code has it).  When the ticker offers no expiry, the guard of
    lines 68-70 draws the explicit message and returns: no table and no
    recommendation are drawn.  When expiries are on offer and the chain
    loads, the category is a function of the two prices alone, whatever the
    tables hold. *)
Theorem analyze_options_without_options {F : Type} `{Number F}
    (selectbox : list string → string) (stock : Ticker) (p c : option F) :
  options stock = Ok [] →
  analyze_options selectbox stock p c =
    [st_subheader "Options Recommendations";
     st_error "No options data available for this stock."] ∧
  recommended (analyze_options selectbox stock p c) = [] ∧
  shows_tables (analyze_options selectbox stock p c) = false ∧
  signals_error (analyze_options selectbox stock p c) = true ∧
  (∀ selectbox1 selectbox2 stock1 stock2 dates1 dates2 calls1 puts1 calls2 puts2
     (p' c' : F),
     options stock1 = Ok dates1 → dates1 ≠ [] →
     option_chain stock1 (selectbox1 dates1) = Ok (calls1, puts1) →
     options stock2 = Ok dates2 → dates2 ≠ [] →
     option_chain stock2 (selectbox2 dates2) = Ok (calls2, puts2) →
     recommended (analyze_options selectbox1 stock1 (Some p') (Some c')) =
     recommended (analyze_options selectbox2 stock2 (Some p') (Some c'))).
Proof.
  intros Ho. rewrite (analyze_options_unavailable _ _ _ _ Ho).
  repeat split.
  intros s1 s2 k1 k2 d1 d2 c1 p1 c2 p2 p' c' Ho1 Hn1 Hc1 Ho2 Hn2 Hc2.
  rewrite (proj1 (recommended_available _ _ _ _ _ p' c' Ho1 Hn1 Hc1)).
  by rewrite (proj1 (recommended_available _ _ _ _ _ p' c' Ho2 Hn2 Hc2)).
Qed.

Lemma analyze_options_without_options_witness :
  options unlisted = Ok [] ∧
  recommended (analyze_options first_expiry unlisted (Some 34%float) (Some 20%float)) = [].
Proof.
  split; [reflexivity|].
  apply (analyze_options_without_options first_expiry unlisted
           (Some 34%float) (Some 20%float)).
  reflexivity.
Defined.

(** C4 fails as stated: the same prices 34 and 20 give BUY_CALL for a ticker
    with options and no category at all for a ticker without. *)
Lemma category_depends_on_availability :
  ¬ (∀ (selectbox : list string → string) (stock : Ticker) (p c : float),
       options stock = Ok [] →
       recommended (analyze_options selectbox stock (Some p) (Some c)) =
       recommended (analyze_options first_expiry (listed [] []) (Some p) (Some c))).
Proof.
  intros Hall.
  specialize (Hall first_expiry unlisted 34%float 20%float eq_refl).
  vm_compute in Hall. discriminate Hall.
Qed.

(** C5 (as the code has it).  Nothing checks the prices.  With NaN as either
    price both comparisons are false: the call draws HOLD and no error.
    Infinite prices are compared like any other: in binary64, with current
    price 100 a predicted +infinity gives BUY_CALL and -infinity BUY_PUT;
    with predicted price 100 a current +infinity gives BUY_PUT and
    -infinity BUY_CALL. *)
Theorem analyze_options_nan (selectbox : list string → string) (stock : Ticker)
    (dates : list string) (calls puts : table) (p c : float) :
  options stock = Ok dates → dates ≠ [] →
  option_chain stock (selectbox dates) = Ok (calls, puts) →
  (PrimFloat.is_nan p = true ∨ PrimFloat.is_nan c = true →
     recommended (analyze_options selectbox stock (Some p) (Some c)) = [HOLD] ∧
     signals_error (analyze_options selectbox stock (Some p) (Some c)) = false) ∧
  signals_error (analyze_options selectbox stock (Some p) (Some c)) = false ∧
  recommend infinity 100%float = st_success BUY_CALL 100%float infinity ∧
  recommend neg_infinity 100%float = st_success BUY_PUT 100%float neg_infinity ∧
  recommend 100%float infinity = st_success BUY_PUT infinity 100%float ∧
  recommend 100%float neg_infinity = st_success BUY_CALL neg_infinity 100%float.
Proof.
  intros Ho Hne Hc.
  rewrite (analyze_options_available _ _ _ _ _ p c Ho Hne Hc).
  split; [|split].
  - intros Hn. rewrite (recommend_nan p c Hn). done.
  - unfold signals_error. cbn. by rewrite recommend_not_error.
  - repeat split; vm_compute; reflexivity.
Qed.

Lemma analyze_options_nan_witness :
  recommended (analyze_options first_expiry (listed [] []) (Some nan) (Some 100%float))
    = [HOLD] ∧
  signals_error (analyze_options first_expiry (listed [] []) (Some nan) (Some 100%float))
    = false.
Proof.
  apply (analyze_options_nan first_expiry (listed [] []) ["2024-01-19"] [] [] nan 100%float);
    [reflexivity | discriminate | reflexivity | left; reflexivity].
Defined.

(** C5 fails as stated: a NaN predicted price next to the finite current
    price 100 is classified HOLD, and an infinite one BUY_CALL; neither call
    signals an error. *)
Lemma non_finite_prices_are_classified :
  ¬ (∀ (selectbox : list string → string) (stock : Ticker) (p c : float),
       PrimFloat.is_finite p = false ∨ PrimFloat.is_finite c = false →
       recommended (analyze_options selectbox stock (Some p) (Some c)) = [] ∧
       signals_error (analyze_options selectbox stock (Some p) (Some c)) = true).
Proof.
  intros Hall.
  destruct (Hall first_expiry (listed [] []) nan 100%float (or_introl eq_refl))
    as [Hrec _].
  vm_compute in Hrec. discriminate Hrec.
Qed.

(** ** Claims about the frame and the early return *)

Section FrameClaims.
Context {F : Type} `{Number F}.
Implicit Types (data : DataFrame F) (days : Z).

Lemma fitted_pair_numeric n (y : list F) days a :
  fitted_pair n y days = Ok a → ∃ current predicted, a = (Some current, Some predicted).
Proof.
  unfold fitted_pair. intros Hfit.
  repeat case_match; simplify_eq; eauto.
Qed.

Lemma predict_price_movement_again data days :
  predict_price_movement (predict_price_movement data days).1 days =
  predict_price_movement data days.
Proof.
  rewrite predict_price_movement_frame.
  destruct (Z.of_nat (nrows data) <? 2)%Z eqn:Hn; [reflexivity|].
  unfold predict_price_movement. cbn [nrows set_column].
  rewrite Hn. fold (set_column "Days" (arange 0 (Z.of_nat (nrows data))) data).
  change ({| nrows := nrows data;
             columns := <["Days" := arange 0 (Z.of_nat (nrows data))]>
                          (columns (set_column "Days" (arange 0 (Z.of_nat (nrows data))) data)) |})
    with (set_column "Days" (arange 0 (Z.of_nat (nrows data)))
            (set_column "Days" (arange 0 (Z.of_nat (nrows data))) data)).
  rewrite set_column_twice. reflexivity.
Qed.

(** C6.  A frame of fewer than two rows, whatever the horizon: the call
    returns the pair [(None, None)] and leaves the frame as it was.  The
    answer cannot be confused with a projection: a frame of two rows or
    more never yields [(None, None)], only a pair of numbers or an
    exception. *)
Theorem predict_price_movement_insufficient data days :
  (nrows data < 2)%nat →
  predict_price_movement data days = (data, Ok (None, None)) ∧
  (∀ (data' : DataFrame F) (days' : Z) a,
     (2 ≤ nrows data')%nat →
     (predict_price_movement data' days').2 = Ok a →
     ∃ current predicted, a = (Some current, Some predicted)).
Proof.
  intros Hn. split; [by apply predict_price_movement_short|].
  intros data' days' a Hn'. rewrite predict_price_movement_outcome.
  rewrite (proj2 (Z.ltb_ge _ _)) by lia.
  destruct (columns data' !! "Close"); [|done].
  apply fitted_pair_numeric.
Qed.

(** C7 (as the code has it).  Line 42 writes into the caller's frame.  A
    call keeps the number of rows and every column other than [Days]; on a
    frame of fewer than two rows it changes nothing; on a longer frame it
    sets the column [Days] to 0, 1, ..., n-1, also when the call later
    raises. *)
Theorem predict_price_movement_frame_effect data days :
  nrows (predict_price_movement data days).1 = nrows data ∧
  (∀ name, name ≠ "Days" →
     columns (predict_price_movement data days).1 !! name = columns data !! name) ∧
  ((nrows data < 2)%nat → (predict_price_movement data days).1 = data) ∧
  ((2 ≤ nrows data)%nat →
     columns (predict_price_movement data days).1 !! "Days" =
     Some (arange 0 (Z.of_nat (nrows data)))).
Proof.
  rewrite predict_price_movement_frame.
  destruct (Z.ltb_spec (Z.of_nat (nrows data)) 2) as [Hn|Hn].
  - split; [done|]. split; [done|]. split; [done|]. lia.
  - split; [done|]. split; [|split].
    + intros name Hne. by apply set_column_other.
    + lia.
    + intros _. apply set_column_same.
Qed.

(** C8.  A second call on the frame the first call left (the same Python
    object, as the two tabs do) ends in the same frame with the same
    outcome; and the outcome reads the frame only through its length and
    its [Close] column, so two frames that agree on these give the same
    pair. *)
Theorem predict_price_movement_deterministic data days :
  predict_price_movement (predict_price_movement data days).1 days =
    predict_price_movement data days ∧
  (∀ (data' : DataFrame F),
     nrows data' = nrows data →
     columns data' !! "Close" = columns data !! "Close" →
     (predict_price_movement data' days).2 = (predict_price_movement data days).2).
Proof.
  split; [apply predict_price_movement_again|].
  intros data' Hn Hclose.
  by rewrite !predict_price_movement_outcome, Hn, Hclose.
Qed.
End FrameClaims.

Lemma predict_price_movement_insufficient_witness :
  predict_price_movement (price_frame [50%float]) 7 =
    (price_frame [50%float], Ok (None, None)).
Proof.
  apply (predict_price_movement_insufficient (price_frame [50%float]) 7).
  simpl. lia.
Defined.

(** C7 fails as stated: after a call on the two closes 10 and 12 the frame
    holds a column [Days] that it did not hold before. *)
Lemma predict_price_movement_writes_days :
  ¬ (∀ (data : DataFrame float) (days : Z),
       (predict_price_movement data days).1 = data).
Proof.
  intros Hall.
  specialize (Hall (price_frame [10%float; 12%float]) 7%Z).
  apply (f_equal (λ d, columns d !! "Days")) in Hall.
  vm_compute in Hall. discriminate Hall.
Qed.

(** ** The fit in exact arithmetic *)

Section ExactFit.
Local Open Scope Qc_scope.
Implicit Types (a b c m x : Qc) (X l : list Qc) (n : nat) (days : Z).

Lemma total_nil : total ([] : list Qc) = 0.
Proof. apply Z2Qc_inj_0. Qed.

Lemma total_cons x l : total (x :: l) = x + total l.
Proof. reflexivity. Qed.

Lemma Qc_of_nat_S n : Qc_of_Z (Z.of_nat (S n)) = Qc_of_Z (Z.of_nat n) + 1.
Proof. by rewrite Nat2Z.inj_succ, <- Z.add_1_r, Z2Qc_inj_add, Z2Qc_inj_1. Qed.

Lemma Qc_of_nat_nonzero n : n ≠ 0%nat → Qc_of_Z (Z.of_nat n) ≠ 0.
Proof.
  intros Hn Hz. rewrite <- Z2Qc_inj_0 in Hz. apply Z2Qc_inj in Hz. lia.
Qed.

Lemma total_linear a b l :
  total ((λ x, a * x + b) <$> l) = a * total l + Qc_of_Z (Z.of_nat (length l)) * b.
Proof.
  induction l as [|x l IH].
  - rewrite fmap_nil, total_nil. cbn [length]. change (Z.of_nat 0) with 0%Z. rewrite Z2Qc_inj_0. ring.
  - rewrite fmap_cons, !total_cons, IH. cbn [length]. rewrite Qc_of_nat_S. ring.
Qed.

Lemma mean_linear a b l :
  l ≠ [] → mean ((λ x, a * x + b) <$> l) = a * mean l + b.
Proof.
  intros Hl. unfold mean. rewrite total_linear, length_fmap. cbn.
  assert (Qc_of_Z (Z.of_nat (length l)) ≠ 0).
  { apply Qc_of_nat_nonzero. by destruct l. }
  field. done.
Qed.

Lemma dot_centred a b m l :
  dot ((λ x, x - m) <$> l) ((λ v, v - (a * m + b)) <$> ((λ x, a * x + b) <$> l)) =
  a * dot ((λ x, x - m) <$> l) ((λ x, x - m) <$> l).
Proof.
  unfold dot. induction l as [|x l IH].
  - rewrite !fmap_nil. cbn [zip_with]. rewrite total_nil. ring.
  - rewrite !fmap_cons. cbn [zip_with]. rewrite !total_cons, IH. cbn. ring.
Qed.

Lemma Qc_square_nonneg x : 0 ≤ x * x.
Proof.
  destruct (Qclt_le_dec x 0) as [Hneg|Hpos].
  - replace (x * x) with ((- x) * (- x)) by ring.
    assert (0 ≤ - x).
    { apply Qclt_le_weak in Hneg. apply Qcopp_le_compat in Hneg.
      by replace (- 0) with 0 in Hneg by ring. }
    by apply Qcmult_nonneg_nonneg.
  - by apply Qcmult_nonneg_nonneg.
Qed.

Lemma Qc_square_pos x : x ≠ 0 → 0 < x * x.
Proof.
  intros Hx. destruct (Qcle_lt_or_eq _ _ (Qc_square_nonneg x)) as [|Hz]; [done|].
  symmetry in Hz. by destruct (Qcmult_integral _ _ Hz).
Qed.

Lemma dot_self_nonneg l : 0 ≤ dot l l.
Proof.
  unfold dot. induction l as [|x l IH]; [cbn [zip_with]; by rewrite total_nil|].
  cbn [zip_with]. rewrite total_cons.
  apply Qcplus_nonneg_nonneg; [apply Qc_square_nonneg | done].
Qed.

Lemma arange_0_cons2 (k : Z) :
  (2 ≤ k)%Z → arange 0 k = (0 : Qc) :: 1 :: (Qc_of_Z <$> seqZ 2 (k - 2)).
Proof.
  intros Hk. unfold arange. rewrite Z.sub_0_r.
  rewrite seqZ_cons by lia. rewrite (seqZ_cons (Z.succ 0)) by lia.
  rewrite !fmap_cons. cbn [num_of_Z Qc_Number].
  rewrite Z2Qc_inj_0. change (Z.succ 0) with 1%Z. rewrite Z2Qc_inj_1.
  repeat f_equal; lia.
Qed.

Lemma centred_indices_spread (k : Z) m :
  (2 ≤ k)%Z →
  dot ((λ x, x - m) <$> arange 0 k) ((λ x, x - m) <$> arange 0 k) ≠ 0.
Proof.
  intros Hk. rewrite arange_0_cons2 by done.
  rewrite !fmap_cons. unfold dot. cbn [zip_with]. rewrite !total_cons.
  fold (dot ((λ x, x - m) <$> (Qc_of_Z <$> seqZ 2 (k - 2)))
            ((λ x, x - m) <$> (Qc_of_Z <$> seqZ 2 (k - 2)))).
  pose proof (dot_self_nonneg ((λ x, x - m) <$> (Qc_of_Z <$> seqZ 2 (k - 2)))) as Hrest.
  apply not_eq_sym, Qclt_not_eq. cbn.
  destruct (decide (m = 0)) as [->|Hm].
  - apply Qcplus_nonneg_pos; [apply Qc_square_nonneg|].
    apply Qcplus_pos_nonneg; [|done]. by apply Qc_square_pos.
  - apply Qcplus_pos_nonneg.
    + apply Qc_square_pos. intros Hz. apply Hm.
      replace m with (- (0 - m)) by ring. rewrite Hz. ring.
    + apply Qcplus_nonneg_nonneg; [apply Qc_square_nonneg | done].
Qed.

Lemma linear_series_arange a b n :
  linear_series a b n = (λ x, a * x + b) <$> arange 0 (Z.of_nat n).
Proof.
  unfold linear_series, arange. rewrite Z.sub_0_r, <- list_fmap_compose. reflexivity.
Qed.

Lemma length_arange (lo hi : Z) : length (arange lo hi : list Qc) = Z.to_nat (hi - lo).
Proof. unfold arange. by rewrite length_fmap, length_seqZ. Qed.

Lemma check_array_exact l : l ≠ [] → check_array l = Ok l.
Proof.
  intros Hl. unfold check_array.
  assert (Hfin : forallb num_finite l = true) by (by apply forallb_forall).
  rewrite Hfin. cbn [negb]. rewrite bool_decide_eq_false_2; [done|].
  by destruct l.
Qed.

Lemma arange_nonempty (lo hi : Z) : (lo < hi)%Z → (arange lo hi : list Qc) ≠ [].
Proof.
  intros Hlt Hnil. apply (f_equal length) in Hnil.
  rewrite length_arange in Hnil. simpl in Hnil. lia.
Qed.

Lemma last_seqZ (m len : Z) : (0 < len)%Z → last (seqZ m len) = Some (m + len - 1)%Z.
Proof.
  intros Hlen. replace len with (Z.of_nat (S (Z.to_nat (len - 1)))) at 1 by lia.
  rewrite seqZ_S, last_snoc. f_equal. lia.
Qed.

(** On a straight line the least-squares fit is that line. *)
Lemma fit_linear a b n :
  (2 ≤ n)%nat →
  fit (arange 0 (Z.of_nat n)) (linear_series a b n) =
  Ok {| coef_ := a; intercept_ := b |}.
Proof.
  intros Hn. rewrite linear_series_arange.
  pose proof (arange_nonempty 0 (Z.of_nat n) ltac:(lia)) as Hne.
  unfold fit. rewrite !check_array_exact; [| by destruct (arange 0 (Z.of_nat n)) | done].
  rewrite length_fmap, bool_decide_eq_true_2 by done. cbn [negb].
  rewrite mean_linear by done.
  set (m := mean (arange 0 (Z.of_nat n))).
  rewrite dot_centred.
  pose proof (centred_indices_spread (Z.of_nat n) m ltac:(lia)) as Hspread.
  set (d := dot _ _) in *.
  clearbody m d. f_equal. cbn. f_equal; field; done.
Qed.

Lemma fitted_pair_linear a b n days :
  (2 ≤ n)%nat → (1 ≤ days)%Z →
  fitted_pair (Z.of_nat n) (linear_series a b n) days =
  Ok (Some (a * Qc_of_Z (Z.of_nat n - 1) + b),
      Some (a * Qc_of_Z (Z.of_nat n + days - 1) + b)).
Proof.
  intros Hn Hdays. unfold fitted_pair. rewrite fit_linear by done.
  unfold predict. rewrite check_array_exact by (apply arange_nonempty; lia).
  unfold linear_series, arange at 1.
  rewrite !fmap_last, !last_seqZ by lia. cbn.
  replace (0 + Z.of_nat n - 1)%Z with (Z.of_nat n - 1)%Z by lia.
  replace (Z.of_nat n + (Z.of_nat n + days - Z.of_nat n) - 1)%Z
    with (Z.of_nat n + days - 1)%Z by lia.
  do 3 f_equal. ring.
Qed.
End ExactFit.

Lemma replicate_linear_series (c : Qc) (n : nat) :
  replicate n c = linear_series (Qc_of_Z 0) c n.
Proof.
  unfold linear_series.
  rewrite (const_fmap _ (seqZ 0 (Z.of_nat n)) c).
  - by rewrite length_seqZ, Nat2Z.id.
  - intros i x _. cbn. rewrite Z2Qc_inj_0. ring.
Qed.

(** ** Claims about the extrapolation *)

(** C1.  Exact arithmetic (the reading "within floating-point tolerance"
    allows).  For closes [close[i] = a*i + b], [i = 0..n-1], with [n >= 2]
    and a horizon of at least 1: the least-squares fit on the indices is
    slope [a] and intercept [b], the current price is the last close
    [a*(n-1) + b], and the projected price is the line read at index
    [n + days - 1]. *)
Theorem predict_price_movement_linear (data : DataFrame Qc) (a b : Qc)
    (n : nat) (days : Z) :
  (2 ≤ n)%nat → (1 ≤ days)%Z →
  nrows data = n →
  columns data !! "Close" = Some (linear_series a b n) →
  fit (arange 0 (Z.of_nat n)) (linear_series a b n) =
    Ok {| coef_ := a; intercept_ := b |} ∧
  last (linear_series a b n) = Some (a * Qc_of_Z (Z.of_nat n - 1) + b)%Qc ∧
  (predict_price_movement data days).2 =
    Ok (Some (a * Qc_of_Z (Z.of_nat n - 1) + b)%Qc,
        Some (a * Qc_of_Z (Z.of_nat n + days - 1) + b)%Qc).
Proof.
  intros Hn Hdays Hrows Hclose. split; [by apply fit_linear|]. split.
  - unfold linear_series. rewrite fmap_last, last_seqZ by lia. cbn.
    by replace (0 + Z.of_nat n - 1)%Z with (Z.of_nat n - 1)%Z by lia.
  - rewrite predict_price_movement_outcome, Hrows, Hclose.
    rewrite (proj2 (Z.ltb_ge _ _)) by lia.
    by apply fitted_pair_linear.
Qed.

Lemma predict_price_movement_linear_witness :
  (predict_price_movement
     (price_frame (linear_series (Qc_of_Z 2) (Qc_of_Z 10) 6)) 7).2 =
  Ok (Some (Qc_of_Z 2 * Qc_of_Z (Z.of_nat 6 - 1) + Qc_of_Z 10)%Qc,
      Some (Qc_of_Z 2 * Qc_of_Z (Z.of_nat 6 + 7 - 1) + Qc_of_Z 10)%Qc).
Proof.
  apply (predict_price_movement_linear
           (price_frame (linear_series (Qc_of_Z 2) (Qc_of_Z 10) 6))
           (Qc_of_Z 2) (Qc_of_Z 10) 6 7).
  - lia.
  - lia.
  - vm_compute. reflexivity.
  - apply lookup_singleton_eq.
Defined.

(** C9 (exact arithmetic).  For a series of [n >= 2] closes all equal to
    [c] and a horizon of at least 1, the fit is slope 0 and intercept [c],
    and the call returns [c] as current and as projected price without
    raising. *)
Theorem predict_price_movement_constant (data : DataFrame Qc) (c : Qc)
    (n : nat) (days : Z) :
  (2 ≤ n)%nat → (1 ≤ days)%Z →
  nrows data = n →
  columns data !! "Close" = Some (replicate n c) →
  fit (arange 0 (Z.of_nat n)) (replicate n c) =
    Ok {| coef_ := Qc_of_Z 0; intercept_ := c |} ∧
  (predict_price_movement data days).2 = Ok (Some c, Some c).
Proof.
  intros Hn Hdays Hrows Hclose. rewrite replicate_linear_series in *.
  split; [by apply fit_linear|].
  rewrite predict_price_movement_outcome, Hrows, Hclose.
  rewrite (proj2 (Z.ltb_ge _ _)) by lia.
  rewrite fitted_pair_linear by done.
  rewrite Z2Qc_inj_0. do 3 f_equal; ring.
Qed.

Lemma predict_price_movement_constant_witness :
  (predict_price_movement (price_frame (replicate 4 (Qc_of_Z 50))) 7).2 =
  Ok (Some (Qc_of_Z 50), Some (Qc_of_Z 50)).
Proof.
  apply (predict_price_movement_constant
           (price_frame (replicate 4 (Qc_of_Z 50))) (Qc_of_Z 50) 4 7).
  - lia.
  - lia.
  - reflexivity.
  - apply lookup_singleton_eq.
Defined.

(** C9 fails as stated in binary64: for three closes of 0.1 the mean
    [(0.1 + 0.1 + 0.1) / 3] rounds to 0.10000000000000002, which becomes
    the intercept and the projected price. *)
Lemma constant_series_is_rounded :
  ¬ (∀ (c : float) (n : nat) (days : Z),
       (2 ≤ n)%nat → (1 ≤ days)%Z → PrimFloat.is_finite c = true →
       ∃ current,
         (predict_price_movement (price_frame (replicate n c)) days).2 =
         Ok (Some current, Some c)).
Proof.
  intros Hall.
  destruct (Hall 0.1%float 3%nat 7%Z ltac:(lia) ltac:(lia) eq_refl)
    as [current Hpair].
  apply (f_equal (λ r, match r with
                       | Ok (_, Some v) => PrimFloat.eqb v 0.1%float
                       | _ => true
                       end)) in Hpair.
  vm_compute in Hpair. discriminate Hpair.
Qed.

(** C3.  The closes 10, 12, 14, 16, 18, 20 with the horizon 7 of the
    options tab, in exact arithmetic and for any frame with these closes:
    current price 20, projected price 34 (the line of slope 2 and intercept
    10 read at index 12), and, for a ticker whose chain loads, the
    recommendation BUY_CALL.  The category does not hang on the last digits
    of the projection: in binary64 [20 * 1.05] is 21, and every projected
    price above 21 next to the current price 20 draws BUY_CALL. *)
Theorem linear_trend_scenario (selectbox : list string → string) (stock : Ticker)
    (dates : list string) (calls puts : table) (data : DataFrame Qc) :
  nrows data = 6%nat →
  columns data !! "Close" = Some (Qc_of_Z <$> [10; 12; 14; 16; 18; 20]%Z) →
  options stock = Ok dates → dates ≠ [] →
  option_chain stock (selectbox dates) = Ok (calls, puts) →
  (predict_price_movement data 7).2 = Ok (Some (Qc_of_Z 20), Some (Qc_of_Z 34)) ∧
  (∃ tr, (options_tab selectbox stock data).2 = Ok tr ∧
         last tr = Some (st_success BUY_CALL (Qc_of_Z 20) (Qc_of_Z 34)) ∧
         recommended tr = [BUY_CALL]) ∧
  (∀ p : float,
     PrimFloat.ltb 21%float p = true →
     recommend p 20%float = st_success BUY_CALL 20%float p).
Proof.
  intros Hrows Hclose Ho Hne Hchain.
  assert (Hpair : (predict_price_movement data 7).2 =
                  Ok (Some (Qc_of_Z 20), Some (Qc_of_Z 34))).
  { rewrite predict_price_movement_outcome, Hrows, Hclose.
    apply (bool_decide_unpack _). vm_compute. exact I. }
  split; [done|]. split.
  2: { intros p Hp. unfold recommend, num_gtb. cbn.
       change (20 * 1.05)%float with 21%float. by rewrite Hp. }
  unfold options_tab.
  destruct (predict_price_movement data 7) as [data' r]. cbn in Hpair.
  subst r. cbn [snd].
  rewrite (analyze_options_available _ _ _ _ _ _ _ Ho Hne Hchain).
  eexists. split; [reflexivity|].
  split; vm_compute; reflexivity.
Qed.

Lemma linear_trend_scenario_witness :
  (predict_price_movement
     (price_frame (Qc_of_Z <$> [10; 12; 14; 16; 18; 20]%Z)) 7).2 =
  Ok (Some (Qc_of_Z 20), Some (Qc_of_Z 34)).
Proof.
  apply (linear_trend_scenario first_expiry (listed [] []) ["2024-01-19"] [] []
           (price_frame (Qc_of_Z <$> [10; 12; 14; 16; 18; 20]%Z))).
  - reflexivity.
  - apply lookup_singleton_eq.
  - reflexivity.
  - discriminate.
  - reflexivity.
Defined.

(** * Further properties *)

(** ** [analyze_options] and [predict_price_movement] at their edges *)

Section CoreExtras.
Context {F : Type} `{Number F}.
Implicit Types (data : DataFrame F) (days : Z) (stock : Ticker)
  (selectbox : list string → string).

(** X1.  [analyze_options] draws either an error and no recommendation,
    or, only when expiries are on offer, the chain loads and both prices
    are numbers, the two tables followed by one recommendation and no
    error. *)
Theorem analyze_options_error_or_recommendation selectbox stock
    (predicted_price current_price : option F) :
  (recommended (analyze_options selectbox stock predicted_price current_price) = [] ∧
   signals_error (analyze_options selectbox stock predicted_price current_price) = true) ∨
  (∃ dates calls puts p c,
     options stock = Ok dates ∧ dates ≠ [] ∧
     option_chain stock (selectbox dates) = Ok (calls, puts) ∧
     predicted_price = Some p ∧ current_price = Some c ∧
     analyze_options selectbox stock predicted_price current_price =
       [st_subheader "Options Recommendations";
        st_write "Call Options"; st_dataframe calls;
        st_write "Put Options"; st_dataframe puts;
        recommend p c] ∧
     signals_error (analyze_options selectbox stock predicted_price current_price) = false).
Proof.
  unfold analyze_options.
  destruct (options stock) as [[|d ds]|e] eqn:Ho; [by left | | by left].
  destruct (option_chain stock (selectbox (d :: ds))) as [[calls puts]|e] eqn:Hc;
    [|by left].
  destruct predicted_price as [p|], current_price as [c|]; try by left.
  right. exists (d :: ds), calls, puts, p, c.
  repeat split; try done.
  unfold signals_error. cbn. by rewrite recommend_not_error.
Qed.

(** X2.  The options tab on a stored frame of fewer than two rows, for a
    ticker whose chain loads: [predict_price_movement] hands over
    [(None, None)], the tables are drawn, and the comparison of line 86
    fails on [None]: an error is drawn in place of a recommendation.  The
    frame is left as it was. *)
Theorem options_tab_short_history selectbox stock data dates calls puts :
  (nrows data < 2)%nat →
  options stock = Ok dates → dates ≠ [] →
  option_chain stock (selectbox dates) = Ok (calls, puts) →
  options_tab selectbox stock data =
    (data, Ok [st_subheader "Options Recommendations";
               st_write "Call Options"; st_dataframe calls;
               st_write "Put Options"; st_dataframe puts;
               st_error "Error analyzing options"]).
Proof.
  intros Hn Ho Hne Hc. unfold options_tab.
  rewrite predict_price_movement_short by done.
  unfold analyze_options. rewrite Ho. destruct dates; [done|]. by rewrite Hc.
Qed.

Lemma arange_empty (lo hi : Z) : (hi ≤ lo)%Z → (arange lo hi : list F) = [].
Proof. intros Hle. unfold arange. by rewrite seqZ_nil by lia. Qed.

Lemma check_array_nil : check_array ([] : list F) = Raise (ValueError "Found array with 0 sample(s)").
Proof. reflexivity. Qed.

Lemma check_array_not_finite (a : list F) :
  forallb num_finite a = false →
  check_array a = Raise (ValueError "Input contains NaN or infinity").
Proof. intros Hf. unfold check_array. by rewrite Hf. Qed.

(** X3.  A horizon of zero or fewer days on a frame of two rows or more:
    the call raises, whatever the closes, and the column [Days] has been
    written by then. *)
Theorem predict_price_movement_bad_horizon data days :
  (2 ≤ nrows data)%nat → (days ≤ 0)%Z →
  (∃ e, (predict_price_movement data days).2 = Raise e) ∧
  columns (predict_price_movement data days).1 !! "Days" =
    Some (arange 0 (Z.of_nat (nrows data))).
Proof.
  intros Hn Hdays. split.
  - rewrite predict_price_movement_outcome.
    rewrite (proj2 (Z.ltb_ge _ _)) by lia.
    destruct (columns data !! "Close") as [y|]; [|by eexists].
    unfold fitted_pair. destruct (fit _ y) as [model|e]; [|by eexists].
    unfold predict. rewrite arange_empty by lia. rewrite check_array_nil. by eexists.
  - rewrite predict_price_movement_frame.
    rewrite (proj2 (Z.ltb_ge _ _)) by lia. apply set_column_same.
Qed.

(** X4.  A frame of two rows or more without a [Close] column: the call
    raises [KeyError] for ['Close'] at line 44, after line 42 has written
    the column [Days]. *)
Theorem predict_price_movement_no_close data days :
  (2 ≤ nrows data)%nat → columns data !! "Close" = None →
  predict_price_movement data days =
    (set_column "Days" (arange 0 (Z.of_nat (nrows data))) data,
     Raise (KeyError "Close")).
Proof.
  intros Hn Hclose.
  rewrite (surjective_pairing (predict_price_movement data days)).
  rewrite predict_price_movement_frame, predict_price_movement_outcome.
  rewrite (proj2 (Z.ltb_ge _ _)) by lia. by rewrite Hclose.
Qed.

(** X5.  A close that is NaN or infinite, in a frame of two rows or more:
    the fit refuses the data and the call raises a [ValueError]; no
    projection is returned. *)
Theorem predict_price_movement_not_finite data days (y : list F) :
  (2 ≤ nrows data)%nat → columns data !! "Close" = Some y →
  forallb num_finite y = false →
  ∃ msg, (predict_price_movement data days).2 = Raise (ValueError msg).
Proof.
  intros Hn Hclose Hy.
  rewrite predict_price_movement_outcome.
  rewrite (proj2 (Z.ltb_ge _ _)) by lia. rewrite Hclose.
  unfold fitted_pair, fit.
  destruct (check_array (arange 0 (Z.of_nat (nrows data)))) as [X|e] eqn:HX.
  - rewrite (check_array_not_finite y Hy). by eexists.
  - unfold check_array in HX. repeat case_match; simplify_eq; by eexists.
Qed.
End CoreExtras.

Section ExactExtras.
Local Open Scope Qc_scope.
Implicit Types (a b c p k : Qc) (n : nat) (days : Z) (data : DataFrame Qc).

Lemma recommend_exact p c :
  category_of (recommend p c) =
  Some (if bool_decide (c * Q2Qc (105 # 100) < p) then BUY_CALL
        else if bool_decide (p < c * Q2Qc (95 # 100)) then BUY_PUT
        else HOLD).
Proof. rewrite recommend_category. reflexivity. Qed.

(** X8.  Exact arithmetic.  For a fixed current price the recommendation
    is monotone in the predicted price: above a BUY_CALL prediction every
    prediction is BUY_CALL, below a BUY_PUT prediction every prediction is
    BUY_PUT. *)
Theorem recommend_monotone p p' c :
  p ≤ p' →
  (category_of (recommend p c) = Some BUY_CALL →
   category_of (recommend p' c) = Some BUY_CALL) ∧
  (category_of (recommend p' c) = Some BUY_PUT →
   category_of (recommend p c) = Some BUY_PUT).
Proof.
  intros Hle. rewrite !recommend_exact.
  destruct (bool_decide_reflect (c * Q2Qc (105 # 100) < p)) as [Hup|Hup];
    destruct (bool_decide_reflect (c * Q2Qc (105 # 100) < p')) as [Hup'|Hup'];
    destruct (bool_decide_reflect (p < c * Q2Qc (95 # 100))) as [Hdown|Hdown];
    destruct (bool_decide_reflect (p' < c * Q2Qc (95 # 100))) as [Hdown'|Hdown'];
    split; try done; exfalso; Qc_to_Q; lra.
Qed.
End ExactExtras.

Section ExactRuns.
Local Open Scope Qc_scope.
Implicit Types (a b c p k : Qc) (n : nat) (days : Z) (data : DataFrame Qc)
  (y : list Qc).

Lemma fit_exact_succeeds n y :
  (2 ≤ n)%nat → length y = n → ∃ model, fit (arange 0 (Z.of_nat n)) y = Ok model.
Proof.
  intros Hn Hlen. unfold fit.
  rewrite check_array_exact by (apply arange_nonempty; lia).
  rewrite check_array_exact by (intros ->; simpl in Hlen; lia).
  rewrite length_arange, bool_decide_eq_true_2 by lia. by eexists.
Qed.

Lemma fitted_pair_exact n y days model :
  (1 ≤ days)%Z → fit (arange 0 (Z.of_nat n)) y = Ok model → y ≠ [] →
  ∃ current, last y = Some current ∧
    fitted_pair (Z.of_nat n) y days =
    Ok (Some current,
        Some (Qc_of_Z (Z.of_nat n + days - 1) * coef_ model + intercept_ model)).
Proof.
  intros Hdays Hfit Hy.
  destruct (last y) as [current|] eqn:Hlast;
    [|by apply last_None in Hlast].
  exists current. split; [done|].
  unfold fitted_pair. rewrite Hfit. unfold predict.
  rewrite check_array_exact by (apply arange_nonempty; lia).
  rewrite Hlast. unfold arange. rewrite !fmap_last, last_seqZ by lia. cbn.
  by replace (Z.of_nat n + (Z.of_nat n + days - Z.of_nat n) - 1)%Z
    with (Z.of_nat n + days - 1)%Z by lia.
Qed.

(** X9.  Exact arithmetic.  For a frame of [n >= 2] rows with its [Close]
    column and a horizon of at least 1 the call does not raise: it returns
    the last close and the fitted line read at index [n + days - 1], so
    one more day of horizon adds the fitted slope. *)
Theorem predict_price_movement_exact data y n days :
  (2 ≤ n)%nat → (1 ≤ days)%Z →
  nrows data = n → columns data !! "Close" = Some y → length y = n →
  ∃ model current,
    fit (arange 0 (Z.of_nat n)) y = Ok model ∧
    last y = Some current ∧
    (predict_price_movement data days).2 =
      Ok (Some current,
          Some (Qc_of_Z (Z.of_nat n + days - 1) * coef_ model + intercept_ model)) ∧
    (predict_price_movement data (days + 1)).2 =
      Ok (Some current,
          Some (Qc_of_Z (Z.of_nat n + days - 1) * coef_ model + intercept_ model
                + coef_ model)).
Proof.
  intros Hn Hdays Hrows Hclose Hlen.
  destruct (fit_exact_succeeds n y Hn Hlen) as [model Hfit].
  assert (Hy : y ≠ []) by (intros ->; simpl in Hlen; lia).
  destruct (fitted_pair_exact n y days model Hdays Hfit Hy) as (current & Hlast & Hpair).
  destruct (fitted_pair_exact n y (days + 1) model ltac:(lia) Hfit Hy)
    as (current' & Hlast' & Hpair').
  exists model, current. split; [done|]. split; [done|].
  rewrite !predict_price_movement_outcome, Hrows, Hclose.
  rewrite (proj2 (Z.ltb_ge _ _)) by lia.
  split; [done|]. rewrite Hpair'. rewrite Hlast in Hlast'. simplify_eq.
  do 3 f_equal.
  replace (Z.of_nat (nrows data) + (days + 1) - 1)%Z
    with ((Z.of_nat (nrows data) + days - 1) + 1)%Z by lia.
  rewrite Z2Qc_inj_add, Z2Qc_inj_1. ring.
Qed.

(** X10.  Exact arithmetic.  The options tab on [n >= 2] equal closes
    [c >= 0], for a ticker whose chain loads: the recommendation is HOLD,
    with [c] as the predicted price. *)
Theorem options_tab_flat_series (selectbox : list string → string) (stock : Ticker)
    (dates : list string) (calls puts : table) data c n :
  (2 ≤ n)%nat → 0 ≤ c →
  nrows data = n → columns data !! "Close" = Some (replicate n c) →
  options stock = Ok dates → dates ≠ [] →
  option_chain stock (selectbox dates) = Ok (calls, puts) →
  (options_tab selectbox stock data).2 =
    Ok [st_subheader "Options Recommendations";
        st_write "Call Options"; st_dataframe calls;
        st_write "Put Options"; st_dataframe puts;
        st_info HOLD c].
Proof.
  intros Hn Hc Hrows Hclose Ho Hne Hchain.
  assert (Hpair : (predict_price_movement data 7).2 = Ok (Some c, Some c)).
  { rewrite predict_price_movement_outcome, Hrows, Hclose.
    rewrite (proj2 (Z.ltb_ge _ _)) by lia.
    rewrite replicate_linear_series, fitted_pair_linear by lia.
    rewrite Z2Qc_inj_0. do 3 f_equal; ring. }
  unfold options_tab.
  destruct (predict_price_movement data 7) as [data' r]. cbn in Hpair. subst r.
  cbn [snd]. rewrite (analyze_options_available _ _ _ _ _ _ _ Ho Hne Hchain).
  do 7 f_equal. unfold recommend, num_gtb. cbn.
  rewrite !bool_decide_eq_false_2; [done| |]; intros Hlt; Qc_to_Q; lra.
Qed.

End ExactRuns.

Section LeastSquares.
Local Open Scope Qc_scope.
Implicit Types (a b m t : Qc) (X y : list Qc) (n : nat).

Lemma total_centred X :
  X ≠ [] → total ((λ x, x - mean X) <$> X) = 0.
Proof.
  intros HX.
  assert (Hlin : ∀ m l, total ((λ x, x - m) <$> l) =
                        total l - Qc_of_Z (Z.of_nat (length l)) * m).
  { intros m l. induction l as [|x l IH].
    - rewrite fmap_nil, total_nil. cbn [length]. change (Z.of_nat 0) with 0%Z.
      rewrite Z2Qc_inj_0. ring.
    - rewrite fmap_cons, !total_cons, IH. cbn [length]. rewrite Qc_of_nat_S. ring. }
  rewrite Hlin. unfold mean. cbn.
  assert (Qc_of_Z (Z.of_nat (length X)) ≠ 0).
  { apply Qc_of_nat_nonzero. by destruct X. }
  field. done.
Qed.

(** The squared error around any centre [(m, ybar)]. *)
Lemma squared_error_centred a b m ybar X y :
  length X = length y →
  squared_error a b X y =
    dot ((λ v, v - ybar) <$> y) ((λ v, v - ybar) <$> y)
    - Qc_of_Z 2 * a * dot ((λ x, x - m) <$> X) ((λ v, v - ybar) <$> y)
    + a * a * dot ((λ x, x - m) <$> X) ((λ x, x - m) <$> X)
    - Qc_of_Z 2 * (b + a * m - ybar) *
        (total ((λ v, v - ybar) <$> y) - a * total ((λ x, x - m) <$> X))
    + Qc_of_Z (Z.of_nat (length X)) * ((b + a * m - ybar) * (b + a * m - ybar)).
Proof.
  unfold squared_error, dot. revert y.
  induction X as [|x X IH]; intros [|v y] Hlen; try discriminate Hlen.
  - rewrite !fmap_nil. cbn [zip_with length]. rewrite !total_nil.
    change (Z.of_nat 0) with 0%Z. rewrite Z2Qc_inj_0. ring.
  - injection Hlen as Hlen. rewrite !fmap_cons. cbn [zip_with length].
    rewrite !total_cons, (IH y Hlen), Qc_of_nat_S. cbn.
    assert (H2 : Qc_of_Z 2 = 1 + 1) by (by apply Qc_is_canon).
    rewrite H2. ring.
Qed.

Lemma Qcle_plus_nonneg x d : 0 ≤ d → x ≤ x + d.
Proof.
  intros Hd. rewrite <- (Qcplus_0_r x) at 1. by apply Qcplus_le_mono_l.
Qed.

Lemma fit_exact_value X y model :
  X ≠ [] → length X = length y → fit X y = Ok model →
  coef_ model = dot ((λ x, x - mean X) <$> X) ((λ v, v - mean y) <$> y) /
                dot ((λ x, x - mean X) <$> X) ((λ x, x - mean X) <$> X) ∧
  intercept_ model = mean y - mean X * coef_ model.
Proof.
  intros HX Hlen. unfold fit.
  rewrite !check_array_exact; [|by destruct y, X|done].
  rewrite bool_decide_eq_true_2 by done. cbn [negb].
  intros [= <-]. split; reflexivity.
Qed.

(** X12.  Exact arithmetic.  The line fitted at lines 45-46 on the indices
    [0..n-1] is a least-squares line: no slope [a] and intercept [b] give a
    smaller sum of squared differences to the closes. *)
Theorem fit_least_squares n y model a b :
  (2 ≤ n)%nat → length y = n →
  fit (arange 0 (Z.of_nat n)) y = Ok model →
  squared_error (coef_ model) (intercept_ model) (arange 0 (Z.of_nat n)) y ≤
  squared_error a b (arange 0 (Z.of_nat n)) y.
Proof.
  intros Hn Hlen Hfit.
  assert (HX : (arange 0 (Z.of_nat n) : list Qc) ≠ []) by (apply arange_nonempty; lia).
  assert (Hy : y ≠ []) by (intros ->; simpl in Hlen; lia).
  assert (HXy : length (arange 0 (Z.of_nat n) : list Qc) = length y)
    by (rewrite length_arange; rewrite Hlen; lia).
  set (X := arange 0 (Z.of_nat n)) in *.
  destruct (fit_exact_value X y model HX HXy Hfit) as [Hslope Hintercept].
  rewrite (squared_error_centred _ _ (mean X) (mean y) X y HXy).
  rewrite (squared_error_centred a b (mean X) (mean y) X y HXy).
  rewrite !total_centred by done.
  pose proof (centred_indices_spread (Z.of_nat n) (mean X) ltac:(lia)) as Hspread.
  fold X in Hspread.
  pose proof (dot_self_nonneg ((λ x, x - mean X) <$> X)) as Hnonneg.
  set (sxx := dot ((λ x, x - mean X) <$> X) ((λ x, x - mean X) <$> X)) in *.
  set (sxy := dot ((λ x, x - mean X) <$> X) ((λ v, v - mean y) <$> y)) in *.
  set (syy := dot ((λ v, v - mean y) <$> y) ((λ v, v - mean y) <$> y)).
  set (N := Qc_of_Z (Z.of_nat (length X))).
  assert (HN : 0 ≤ N).
  { unfold N. rewrite <- Z2Qc_inj_0.
    apply (proj1 (Z2Qc_inj_le 0 (Z.of_nat (length X)))). lia. }
  clearbody sxx sxy syy N. revert Hintercept.
  generalize (mean X) (mean y) (coef_ model) (intercept_ model) Hslope.
  clear Hslope Hfit model. intros m ybar slope intercept Hslope ->.
  set (t := b + a * m - ybar).
  assert (Hsxy : sxy = slope * sxx) by (rewrite Hslope; field; done).
  assert (Hgap : 0 ≤ (a - slope) * (a - slope) * sxx + N * (t * t)).
  { apply Qcplus_nonneg_nonneg; apply Qcmult_nonneg_nonneg;
      auto using Qc_square_nonneg. }
  clearbody t. clear Hslope. subst sxy.
  assert (H2 : Qc_of_Z 2 = 1 + 1) by (by apply Qc_is_canon). rewrite !H2.
  match goal with |- ?l ≤ ?r =>
    replace r with (l + ((a - slope) * (a - slope) * sxx + N * (t * t))) by ring
  end.
  by apply Qcle_plus_nonneg.
Qed.
End LeastSquares.

(** ** The page across runs *)

Section PageFacts.
Context {F : Type} `{Number F}.
Implicit Types (app : App F) (s : Session F) (w : Widgets) (market : Market F)
  (data : DataFrame F) (cache : fetch_cache F).

Lemma fetch_stock_data_body_ok market ticker d1 d2 :
  fetch_answer_ok (fetch_stock_data_body market ticker d1 d2).
Proof.
  unfold fetch_stock_data_body.
  destruct (yf_download market ticker d1 d2) as [data|e]; [|by eexists].
  destruct (frame_empty data) eqn:He; [by eexists | done].
Qed.

Lemma fetch_stock_data_stores cache market ticker d1 d2 :
  (fetch_stock_data cache market ticker d1 d2).1 !! (ticker, d1, d2) =
  Some (fetch_stock_data cache market ticker d1 d2).2.
Proof.
  unfold fetch_stock_data.
  destruct (cache !! (ticker, d1, d2)) as [answer|] eqn:Hc; [done|].
  cbn. by rewrite lookup_insert_eq.
Qed.

Lemma fetch_stock_data_keeps cache market ticker d1 d2 key answer :
  cache !! key = Some answer →
  (fetch_stock_data cache market ticker d1 d2).1 !! key = Some answer.
Proof.
  intros Hkey. unfold fetch_stock_data.
  destruct (cache !! (ticker, d1, d2)) as [answer'|] eqn:Hc; [done|].
  cbn. rewrite lookup_insert_ne; [done|]. intros <-. congruence.
Qed.

Lemma fetch_stock_data_hit cache market ticker d1 d2 answer :
  cache !! (ticker, d1, d2) = Some answer →
  fetch_stock_data cache market ticker d1 d2 = (cache, answer).
Proof. intros Hc. unfold fetch_stock_data. by rewrite Hc. Qed.

Lemma fetch_stock_data_ok cache market ticker d1 d2 :
  (∀ key answer, cache !! key = Some answer → fetch_answer_ok answer) →
  fetch_answer_ok (fetch_stock_data cache market ticker d1 d2).2 ∧
  (∀ key answer, (fetch_stock_data cache market ticker d1 d2).1 !! key = Some answer →
     fetch_answer_ok answer).
Proof.
  intros Hcache. unfold fetch_stock_data.
  destruct (cache !! (ticker, d1, d2)) as [answer|] eqn:Hc; cbn.
  - split; [by eapply Hcache | done].
  - split; [apply fetch_stock_data_body_ok|].
    intros key answer. rewrite lookup_insert.
    case_decide; [|by apply Hcache].
    intros [= <-]. apply fetch_stock_data_body_ok.
Qed.

Lemma predict_price_movement_not_empty data days :
  frame_empty data = false →
  frame_empty (predict_price_movement data days).1 = false.
Proof.
  rewrite predict_price_movement_frame.
  destruct (Z.of_nat (nrows data) <? 2)%Z; [done|].
  unfold frame_empty. cbn [nrows columns set_column].
  intros [Hrows _]%orb_false_elim. rewrite Hrows. cbn.
  apply bool_decide_eq_false_2.
  intros Hsize%map_size_empty_iff.
  by apply insert_non_empty in Hsize.
Qed.

Lemma options_tab_frame (selectbox : list string → string) (stock : Ticker) data :
  (options_tab selectbox stock data).1 = (predict_price_movement data 7).1.
Proof.
  unfold options_tab.
  destruct (predict_price_movement data 7) as [data' [[cur pred]|e]]; reflexivity.
Qed.

Lemma stock_analysis_tab_cache w market app :
  data_cache (stock_analysis_tab w market app).1.1 =
  if analyze_pressed w
  then (fetch_stock_data (data_cache app) market
          (stock_choice w) (start_date w) (end_date w)).1
  else data_cache app.
Proof.
  unfold stock_analysis_tab.
  destruct (analyze_pressed w); [|done].
  destruct (fetch_stock_data _ _ _ _ _) as [cache [messages [data|]]]; [|done].
  cbn [fst].
  destruct (display_candlestick_chart data) as [chart [[]|e]]; [|done].
  destruct (predict_price_movement data 7) as [data' [[[c|] [p|]]|e]]; done.
Qed.

Lemma stock_analysis_tab_ok w market app :
  app_ok app → app_ok (stock_analysis_tab w market app).1.1.
Proof.
  intros [Hs Hc]. unfold stock_analysis_tab.
  destruct (analyze_pressed w); [|done].
  destruct (fetch_stock_data_ok (data_cache app) market
              (stock_choice w) (start_date w) (end_date w) Hc) as [Hanswer Hcache'].
  destruct (fetch_stock_data _ _ _ _ _) as [cache [messages [data|]]];
    cbn [fst snd] in *.
  - destruct Hanswer as [-> Hdata].
    pose proof (predict_price_movement_not_empty data 7 Hdata) as Hdata'.
    destruct (display_candlestick_chart data) as [chart [[]|e]].
    + destruct (predict_price_movement data 7) as [data' [[[c|] [p|]]|e]];
        (split; [|done]); cbn; intros ? [= <-]; eauto.
    + split; [|done]. cbn. intros ? [= <-]; eauto.
  - split; [|done]. cbn. intros data Hdata.
    destruct (Hs data Hdata) as [? _]. eauto.
Qed.

Lemma options_analysis_tab_session w market s :
  selected_stock (options_analysis_tab w market s).1.1 = selected_stock s ∧
  (∀ data', stock_data (options_analysis_tab w market s).1.1 = Some data' →
     ∃ data, stock_data s = Some data ∧
       (data' = data ∨ data' = (predict_price_movement data 7).1)).
Proof.
  unfold options_analysis_tab.
  destruct (chosen (selected_stock s)) as [symbol|]; [|by eauto].
  destruct (stock_data s) as [data|] eqn:Hdata; [|split; [done|]; cbn; congruence].
  pose proof (options_tab_frame (expiry_choice w) (yf_Ticker market symbol) data) as Hf.
  destruct (options_tab _ _ data) as [data' [drawn|e]]; cbn in *;
    (split; [done|]); intros ? [= <-]; eauto.
Qed.

Lemma run_script_ok w market app : app_ok app → app_ok (run_script w market app).1.1.
Proof.
  intros Hok. unfold run_script.
  pose proof (stock_analysis_tab_ok w market app Hok) as Hok1.
  destruct (stock_analysis_tab w market app) as [[app1 drawn1] [[]|e]]; [|done].
  cbn [fst] in Hok1. destruct Hok1 as [Hs1 Hc1].
  destruct (options_analysis_tab_session w market (session app1)) as [Hsel Hframe].
  assert (app_ok {| session := (options_analysis_tab w market (session app1)).1.1;
                    data_cache := data_cache app1 |}) as Hok2.
  { split; [|done]. cbn. intros data' Hdata'.
    destruct (Hframe data' Hdata') as (data & Hdata & Hcase).
    destruct (Hs1 data Hdata) as [Hne Hsome]. rewrite Hsel. split; [|done].
    destruct Hcase as [->| ->]; [done|].
    by apply predict_price_movement_not_empty. }
  destruct (options_analysis_tab w market (session app1)) as [[s2 drawn2] [[]|e]]; done.
Qed.

Lemma run_all_ok app runs : app_ok app → app_ok (run_all app runs).
Proof.
  revert app. induction runs as [|[w market] runs IH]; intros app Hok; [done|].
  apply IH, run_script_ok, Hok.
Qed.

Lemma initial_app_ok : app_ok (initial_app : App F).
Proof. split; [done|]. intros key answer Hkey. cbn in Hkey. by rewrite lookup_empty in Hkey. Qed.

Lemma run_script_cache w market app :
  data_cache (run_script w market app).1.1 =
  data_cache (stock_analysis_tab w market app).1.1.
Proof.
  unfold run_script.
  destruct (stock_analysis_tab w market app) as [[app1 drawn1] [[]|e]]; [|done].
  destruct (options_analysis_tab w market (session app1)) as [[s2 drawn2] [[]|e]]; done.
Qed.

Lemma run_script_keeps w market app key answer :
  data_cache app !! key = Some answer →
  data_cache (run_script w market app).1.1 !! key = Some answer.
Proof.
  intros Hkey. rewrite run_script_cache, stock_analysis_tab_cache.
  destruct (analyze_pressed w); [|done]. by apply fetch_stock_data_keeps.
Qed.

Lemma run_all_keeps app runs key answer :
  data_cache app !! key = Some answer →
  data_cache (run_all app runs) !! key = Some answer.
Proof.
  revert app. induction runs as [|[w market] runs IH]; intros app Hkey; [done|].
  apply IH, run_script_keeps, Hkey.
Qed.
End PageFacts.

Lemma top_50_stocks_not_blank symbol : symbol ∈ top_50_stocks → symbol ≠ "".
Proof.
  intros Hin ->. revert Hin. unfold top_50_stocks.
  rewrite !elem_of_cons, elem_of_nil. intros Hin.
  repeat (destruct Hin as [Hin|Hin]; [discriminate Hin|]). done.
Qed.

Section PageClaims.
Context {F : Type} `{Number F}.
Implicit Types (app : App F) (s : Session F) (w : Widgets) (market : Market F)
  (data : DataFrame F).

Lemma chosen_top_50 symbol : symbol ∈ top_50_stocks → chosen (Some symbol) = Some symbol.
Proof.
  intros Hin%top_50_stocks_not_blank. unfold chosen. by rewrite decide_False.
Qed.

(** X13.  Whatever the runs since the first visit: a frame stored in the
    session is not empty and comes with a selected symbol, and the store of
    the cache holds only answers of the kind [fetch_stock_data] gives. *)
Theorem app_after_ok (runs : list (Widgets * Market F)) : app_ok (app_after runs).
Proof. apply run_all_ok, initial_app_ok. Qed.

(** X14.  In every state the page reaches, [fetch_stock_data] answers
    with a frame that is not empty and draws nothing, or with [None] and
    draws one error; no exception of the download escapes it. *)
Theorem fetch_stock_data_answer (runs : list (Widgets * Market F)) market
    (ticker : string) (d1 d2 : Z) :
  match (fetch_stock_data (data_cache (app_after runs)) market ticker d1 d2).2 with
  | (messages, Some data) => messages = [] ∧ frame_empty data = false
  | (messages, None) => ∃ text, messages = [st_error text]
  end.
Proof.
  destruct (run_all_ok initial_app runs initial_app_ok) as [_ Hcache].
  apply (fetch_stock_data_ok _ market ticker d1 d2 Hcache).
Qed.

(** X15.  Once the button was pressed for a symbol and two dates, every
    later call of [fetch_stock_data] with these arguments, after any number
    of runs and whatever yfinance would answer by then, returns the answer
    of that first run without a download; if the arguments were new then,
    it is the answer of the download of that run, a failure included. *)
Theorem download_is_remembered w market app (runs : list (Widgets * Market F))
    (market' : Market F) :
  analyze_pressed w = true →
  ∃ answer,
    (data_cache app !! (stock_choice w, start_date w, end_date w) = None →
       answer = fetch_stock_data_body market (stock_choice w) (start_date w) (end_date w)) ∧
    fetch_stock_data (data_cache (run_all (run_script w market app).1.1 runs)) market'
      (stock_choice w) (start_date w) (end_date w) =
    (data_cache (run_all (run_script w market app).1.1 runs), answer).
Proof.
  intros Hpressed.
  exists (fetch_stock_data (data_cache app) market
            (stock_choice w) (start_date w) (end_date w)).2.
  split.
  - intros Hmiss. unfold fetch_stock_data. by rewrite Hmiss.
  - apply fetch_stock_data_hit, run_all_keeps.
    rewrite run_script_cache, stock_analysis_tab_cache, Hpressed.
    apply fetch_stock_data_stores.
Qed.

(** X16.  A run in which the button is pressed, the fetch returns a frame,
    the chart is drawn and the prediction gives two prices: the stock tab
    shows the two prices, the session keeps the frame with its column
    [Days], and the options tab of the same run, which predicts again on
    that frame, analyses the options with the same two prices. *)
Theorem tabs_agree w market app cache' messages data chart data' (c p : F) :
  analyze_pressed w = true →
  stock_choice w ∈ top_50_stocks →
  fetch_stock_data (data_cache app) market
    (stock_choice w) (start_date w) (end_date w) = (cache', (messages, Some data)) →
  display_candlestick_chart data = (chart, Ok ()) →
  predict_price_movement data 7 = (data', Ok (Some c, Some p)) →
  run_script w market app =
    ({| session := {| stock_data := Some data';
                      selected_stock := Some (stock_choice w) |};
        data_cache := cache' |},
     [st_header "Stock Analysis"] ++ (core <$> messages) ++
     [st_write_frame "Stock Data" (frame_tail 10 data)] ++ chart ++
     [st_write_price "Current Price" c; st_write_price "Predicted Price" p;
      st_header "Options Analysis";
      core (st_write ("Fetching options for " +:+ stock_choice w +:+ "..."))] ++
     (core <$> analyze_options (expiry_choice w) (yf_Ticker market (stock_choice w))
                 (Some p) (Some c)) ++
     fetch_economic_events ++ fetch_news_sentiment (stock_choice w),
     Ok ()).
Proof.
  intros Hpressed Hsymbol Hfetch Hchart Hpredict.
  pose proof (predict_price_movement_again data 7) as Hagain.
  rewrite Hpredict in Hagain. cbn [fst] in Hagain.
  unfold run_script, stock_analysis_tab.
  rewrite Hpressed, Hfetch, Hchart, Hpredict.
  unfold options_analysis_tab. cbn [session selected_stock stock_data].
  rewrite (chosen_top_50 _ Hsymbol).
  unfold options_tab. rewrite Hagain.
  unfold news_sentiment_tab, economic_events_tab. cbn [selected_stock].
  rewrite (chosen_top_50 _ Hsymbol).
  do 2 f_equal. rewrite <- !app_assoc. reflexivity.
Qed.

(** X17.  A run in which the button is pressed and the fetch returns
    [None]: the session takes the new symbol and keeps the frame it had.
    With no frame the options tab only announces the symbol; with the frame
    of an earlier analysis it analyses the options of the new symbol with
    the prices of that earlier frame. *)
Theorem failed_fetch_keeps_frame w market app cache' messages :
  analyze_pressed w = true →
  stock_choice w ∈ top_50_stocks →
  fetch_stock_data (data_cache app) market
    (stock_choice w) (start_date w) (end_date w) = (cache', (messages, None)) →
  (stock_data (session app) = None →
   run_script w market app =
     ({| session := {| stock_data := None; selected_stock := Some (stock_choice w) |};
         data_cache := cache' |},
      [st_header "Stock Analysis"] ++ (core <$> messages) ++
      [st_header "Options Analysis";
       core (st_write ("Fetching options for " +:+ stock_choice w +:+ "..."))] ++
      fetch_economic_events ++ fetch_news_sentiment (stock_choice w),
      Ok ())) ∧
  (∀ old old' drawn,
     stock_data (session app) = Some old →
     options_tab (expiry_choice w) (yf_Ticker market (stock_choice w)) old =
       (old', Ok drawn) →
     run_script w market app =
       ({| session := {| stock_data := Some old';
                         selected_stock := Some (stock_choice w) |};
           data_cache := cache' |},
        [st_header "Stock Analysis"] ++ (core <$> messages) ++
        [st_header "Options Analysis";
         core (st_write ("Fetching options for " +:+ stock_choice w +:+ "..."))] ++
        (core <$> drawn) ++
        fetch_economic_events ++ fetch_news_sentiment (stock_choice w),
        Ok ())).
Proof.
  intros Hpressed Hsymbol Hfetch. split.
  - intros Hnone. unfold run_script, stock_analysis_tab.
    rewrite Hpressed, Hfetch, Hnone.
    unfold options_analysis_tab. cbn [session selected_stock stock_data].
    rewrite (chosen_top_50 _ Hsymbol).
    unfold news_sentiment_tab, economic_events_tab. cbn [selected_stock].
    rewrite (chosen_top_50 _ Hsymbol).
    first [reflexivity | do 2 f_equal; rewrite <- !app_assoc; reflexivity].
  - intros old old' drawn Hold Htab. unfold run_script, stock_analysis_tab.
    rewrite Hpressed, Hfetch, Hold.
    unfold options_analysis_tab. cbn [session selected_stock stock_data].
    rewrite (chosen_top_50 _ Hsymbol), Htab.
    unfold news_sentiment_tab, economic_events_tab. cbn [selected_stock].
    rewrite (chosen_top_50 _ Hsymbol).
    first [reflexivity | do 2 f_equal; rewrite <- !app_assoc; reflexivity].
Qed.
End PageClaims.

(** ** Instances of the properties above *)

Lemma options_tab_short_history_witness :
  options_tab first_expiry (listed [] []) (price_frame [50%float]) =
  (price_frame [50%float],
   Ok [st_subheader "Options Recommendations";
       st_write "Call Options"; st_dataframe [];
       st_write "Put Options"; st_dataframe [];
       st_error "Error analyzing options"]).
Proof.
  apply (options_tab_short_history first_expiry (listed [] [])
           (price_frame [50%float]) ["2024-01-19"] [] []).
  - simpl. lia.
  - reflexivity.
  - discriminate.
  - reflexivity.
Defined.

Lemma predict_price_movement_bad_horizon_witness :
  ∃ e, (predict_price_movement (price_frame [10%float; 12%float]) 0).2 = Raise e.
Proof.
  apply (predict_price_movement_bad_horizon (price_frame [10%float; 12%float]) 0).
  - simpl. lia.
  - lia.
Defined.

Lemma predict_price_movement_no_close_witness :
  (predict_price_movement
     {| nrows := 2; columns := {[ "Open" := [10%float; 12%float] ]} |} 7).2 =
  Raise (KeyError "Close").
Proof.
  rewrite (predict_price_movement_no_close
             {| nrows := 2; columns := {[ "Open" := [10%float; 12%float] ]} |} 7).
  - reflexivity.
  - simpl. lia.
  - reflexivity.
Defined.

Lemma predict_price_movement_not_finite_witness :
  ∃ msg, (predict_price_movement (price_frame [10%float; nan; 12%float]) 7).2 =
         Raise (ValueError msg).
Proof.
  apply (predict_price_movement_not_finite
           (price_frame [10%float; nan; 12%float]) 7 [10%float; nan; 12%float]).
  - simpl. lia.
  - reflexivity.
  - reflexivity.
Defined.

Lemma recommend_monotone_witness :
  category_of (recommend (Qc_of_Z 34) (Qc_of_Z 20)) = Some BUY_CALL.
Proof.
  apply (recommend_monotone (Qc_of_Z 30) (Qc_of_Z 34) (Qc_of_Z 20)).
  - unfold Qcle, Qle. simpl. lia.
  - vm_compute. reflexivity.
Defined.

Lemma predict_price_movement_exact_witness :
  ∃ model current,
    fit (arange 0 (Z.of_nat 3)) (Qc_of_Z <$> [10; 13; 14]%Z) = Ok model ∧
    last (Qc_of_Z <$> [10; 13; 14]%Z) = Some current ∧
    (predict_price_movement (price_frame (Qc_of_Z <$> [10; 13; 14]%Z)) 7).2 =
      Ok (Some current,
          Some (Qc_of_Z (Z.of_nat 3 + 7 - 1) * coef_ model + intercept_ model)%Qc) ∧
    (predict_price_movement (price_frame (Qc_of_Z <$> [10; 13; 14]%Z)) (7 + 1)).2 =
      Ok (Some current,
          Some (Qc_of_Z (Z.of_nat 3 + 7 - 1) * coef_ model + intercept_ model
                + coef_ model)%Qc).
Proof.
  apply (predict_price_movement_exact
           (price_frame (Qc_of_Z <$> [10; 13; 14]%Z)) (Qc_of_Z <$> [10; 13; 14]%Z) 3 7).
  - lia.
  - lia.
  - reflexivity.
  - reflexivity.
  - reflexivity.
Defined.

Lemma options_tab_flat_series_witness :
  (options_tab first_expiry (listed [] [])
     (price_frame (replicate 4 (Qc_of_Z 50)))).2 =
  Ok [st_subheader "Options Recommendations";
      st_write "Call Options"; st_dataframe [];
      st_write "Put Options"; st_dataframe [];
      st_info HOLD (Qc_of_Z 50)].
Proof.
  apply (options_tab_flat_series first_expiry (listed [] []) ["2024-01-19"] [] []
           (price_frame (replicate 4 (Qc_of_Z 50))) (Qc_of_Z 50) 4).
  - lia.
  - unfold Qcle, Qle. simpl. lia.
  - reflexivity.
  - reflexivity.
  - reflexivity.
  - discriminate.
  - reflexivity.
Defined.

Lemma fit_least_squares_witness :
  (squared_error (Qc_of_Z 2) (Qc_of_Z 10)
     (arange 0 (Z.of_nat 3)) (linear_series (Qc_of_Z 2) (Qc_of_Z 10) 3)
   ≤ squared_error (Qc_of_Z 0) (Qc_of_Z 0)
       (arange 0 (Z.of_nat 3)) (linear_series (Qc_of_Z 2) (Qc_of_Z 10) 3))%Qc.
Proof.
  apply (fit_least_squares 3 (linear_series (Qc_of_Z 2) (Qc_of_Z 10) 3)
           {| coef_ := Qc_of_Z 2; intercept_ := Qc_of_Z 10 |}
           (Qc_of_Z 0) (Qc_of_Z 0)).
  - lia.
  - vm_compute. reflexivity.
  - apply fit_linear. lia.
Defined.

Lemma download_is_remembered_witness :
  ∃ answer,
    (data_cache (initial_app : App float)
       !! (stock_choice (press "AAPL"), start_date (press "AAPL"),
           end_date (press "AAPL")) = None →
     answer = fetch_stock_data_body closed_market (stock_choice (press "AAPL"))
                (start_date (press "AAPL")) (end_date (press "AAPL"))) ∧
    fetch_stock_data
      (data_cache (run_all (run_script (press "AAPL") closed_market initial_app).1.1 []))
      (steady_market [10%float; 12%float])
      (stock_choice (press "AAPL")) (start_date (press "AAPL")) (end_date (press "AAPL")) =
    (data_cache (run_all (run_script (press "AAPL") closed_market initial_app).1.1 []),
     answer).
Proof.
  apply (download_is_remembered (press "AAPL") closed_market initial_app []
           (steady_market [10%float; 12%float])).
  reflexivity.
Defined.

Lemma tabs_agree_witness :
  (run_script (press "AAPL")
     (steady_market [10; 12; 14; 16; 18; 20]%float) initial_app).2 = Ok ().
Proof.
  erewrite (tabs_agree (press "AAPL")
              (steady_market [10; 12; 14; 16; 18; 20]%float) initial_app).
  - reflexivity.
  - reflexivity.
  - apply list_elem_of_here.
  - reflexivity.
  - reflexivity.
  - vm_compute. reflexivity.
Defined.

Lemma failed_fetch_keeps_frame_witness :
  (run_script (press "AAPL") (closed_market : Market float) initial_app).1.1 =
  {| session := {| stock_data := None; selected_stock := Some "AAPL" |};
     data_cache := {[ ("AAPL", 738156%Z, 738886%Z) :=
                        ([st_error "Error fetching stock data"], None) ]} |}.
Proof.
  erewrite (proj1 (failed_fetch_keeps_frame (press "AAPL") closed_market initial_app
                     _ _ eq_refl (list_elem_of_here _ _) eq_refl)).
  - reflexivity.
  - reflexivity.
Defined.
